(** * Verification of [telegram_bot.py]: the Telegram relay of passivbot

    The development embeds the [Telegram] class of [src/telegram_bot.py]:
    its command handlers, the config-reload workflow with its cooldown
    timestamp, and the best-effort [send_msg].  Handlers are written in a
    small state-and-exception monad over a [World]: the fields of the
    [Telegram] object, the bot it controls, the tasks pending on the event
    loop and a log of the observable calls.

    What lies outside the file is a parameter:
    - the clock, the chat transport, the file system and git are oracles of
      a [Runtime], each answering the k-th call made to it;
    - value formatting, [json.dumps] and PrettyTable's text layout are the
      functions of a [Library];
    - the trading bot is an instance of the class [BotFacade].

    Time stamps are rationals: [time()] returns seconds as a float, and the
    only arithmetic done on them is one subtraction and two comparisons. *)

From Stdlib Require Import String Ascii List Bool Arith Lia.
From Stdlib Require Import ZArith QArith DecimalString.
From Stdlib Require Import Permutation Sorted.
Import ListNotations.

Local Open Scope list_scope.
Local Open Scope string_scope.

(** ** Python values, exceptions and outcomes *)

(** The values held by the position mapping and by table cells. *)
#[warnings="-register-all"]
Inductive pyval : Type :=
| PNum (q : Q)
| PStr (s : string)
| PDict (d : list (string * pyval)).

Definition dict := list (string * pyval).

Inductive exn : Type :=
| KeyError (k : string)
| TypeError
| ValueError
| OSError
| JSONDecodeError
| IndexError
| NetworkError
| GitError
| KeyboardInterrupt.

(** [except Exception] catches every error but those deriving from
    [BaseException] only; a bare [except:] catches all of them. *)
Definition is_Exception (e : exn) : bool :=
  match e with
  | KeyboardInterrupt => false
  | _ => true
  end.

Inductive outcome (A : Type) : Type :=
| Ret (a : A)
| Raise (e : exn).
Arguments Ret {A} a.
Arguments Raise {A} e.

Definition obind {A C : Type} (o : outcome A) (k : A -> outcome C) : outcome C :=
  match o with
  | Ret a => k a
  | Raise e => Raise e
  end.

(** ** Dictionaries *)

Fixpoint lookup (k : string) (d : dict) : option pyval :=
  match d with
  | [] => None
  | (k', v) :: d' => if String.eqb k k' then Some v else lookup k d'
  end.

(** [k in d] *)
Definition contains (k : string) (d : dict) : bool :=
  match lookup k d with
  | Some _ => true
  | None => false
  end.

(** [bool(d)] *)
Definition truthy (d : dict) : bool :=
  match d with
  | [] => false
  | _ :: _ => true
  end.

(** [v[k]] *)
Definition getitem (v : pyval) (k : string) : outcome pyval :=
  match v with
  | PDict d =>
      match lookup k d with
      | Some x => Ret x
      | None => Raise (KeyError k)
      end
  | _ => Raise TypeError
  end.

(** ** Rational comparisons *)

Definition Qltb (x y : Q) : bool :=
  match (x ?= y)%Q with
  | Lt => true
  | _ => false
  end.

(** ** PrettyTable

    The part of the [prettytable] library the handlers use: a header, rows
    appended by [add_row], and [get_string], which sorts the rows on the
    [sortby] column before laying them out.  The layout itself is the
    [draw_table] function of the [Library]. *)

Definition row := list pyval.

Record PrettyTable : Type := mkTable {
  field_names : list string;
  rows : list row
}.

Definition new_table (names : list string) : PrettyTable :=
  {| field_names := names; rows := [] |}.

(** A row must have one value for each field. *)
Definition add_row (r : row) (t : PrettyTable) : outcome PrettyTable :=
  if Nat.eqb (length r) (length (field_names t))
  then Ret {| field_names := field_names t; rows := (rows t ++ [r])%list |}
  else Raise ValueError.

Fixpoint index (name : string) (names : list string) : outcome nat :=
  match names with
  | [] => Raise ValueError
  | n :: names' =>
      if String.eqb name n then Ret O
      else obind (index name names') (fun i => Ret (S i))
  end.

(** Three-way comparison of two cells.  Numbers compare with numbers and
    strings with strings; an ordering comparison of any other pair raises
    [TypeError]. *)
Definition py_compare (a b : pyval) : outcome comparison :=
  match a, b with
  | PNum x, PNum y => Ret (x ?= y)%Q
  | PStr s, PStr t => Ret (String.compare s t)
  | _, _ => Raise TypeError
  end.

(** [a < b] on lists: the first cells that differ decide; a proper prefix
    is smaller. *)
Fixpoint list_lt (a b : row) : outcome bool :=
  match a, b with
  | [], [] => Ret false
  | [], _ :: _ => Ret true
  | _ :: _, [] => Ret false
  | x :: a', y :: b' =>
      obind (py_compare x y) (fun c =>
        match c with
        | Lt => Ret true
        | Gt => Ret false
        | Eq => list_lt a' b'
        end)
  end.

(** Rows are sorted on the key [[row[sortindex]] + row]. *)
Definition decorate (sortindex : nat) (r : row) : outcome row :=
  match nth_error r sortindex with
  | Some c => Ret (c :: r)
  | None => Raise IndexError
  end.

Definition undecorate (r : row) : row := tl r.

(** [list.sort] is stable: an element is placed after the elements that
    are not greater than it.  [insort x l] does that for a sorted [l], with
    the comparisons [x < y] only. *)
Fixpoint insort (x : row) (l : list row) : outcome (list row) :=
  match l with
  | [] => Ret [x]
  | y :: l' =>
      obind (list_lt x y) (fun lt =>
        if lt then Ret (x :: y :: l')
        else obind (insort x l') (fun l'' => Ret (y :: l'')))
  end.

Definition sort (l : list row) : outcome (list row) :=
  fold_left (fun acc x => obind acc (insort x)) l (Ret []).

Fixpoint map_outcome {A C : Type} (f : A -> outcome C) (l : list A) : outcome (list C) :=
  match l with
  | [] => Ret []
  | x :: l' => obind (f x) (fun y => obind (map_outcome f l') (fun ys => Ret (y :: ys)))
  end.

(** The rows as [get_string] lays them out. *)
Definition get_rows (sortby : option string) (t : PrettyTable) : outcome (list row) :=
  match sortby with
  | None => Ret (rows t)
  | Some name =>
      obind (index name (field_names t)) (fun sortindex =>
      obind (map_outcome (decorate sortindex) (rows t)) (fun decorated =>
      obind (sort decorated) (fun sorted =>
      Ret (map undecorate sorted))))
  end.

(** ** What the file takes from outside *)

Record Library (Config : Type) : Type := mkLibrary {
  (** [format(v)], as an f-string does *)
  format_value : pyval -> string;
  (** [json.dumps(config, indent=4)] *)
  json_dumps : Config -> string;
  (** the text of a table with [border=True, padding_width=1,
      junction_char=' ', vertical_char=' ', hrules=HEADER] *)
  draw_table : list string -> list row -> string
}.
Arguments format_value {Config} _ _.
Arguments json_dumps {Config} _ _.
Arguments draw_table {Config} _ _ _.

(** The oracles: each answers the k-th call made to it since start-up. *)
Record Runtime (Config : Type) : Type := mkRuntime {
  (** [time()], seconds since the epoch *)
  clock : nat -> Q;
  (** [self._updater.bot.send_message(...)]: [None] when it returns *)
  send_message : nat -> option exn;
  (** [json.load(open(sys.argv[3]))] *)
  json_load : nat -> outcome Config;
  (** the short hash of the head commit, or what the git lookup raises *)
  git_rev_parse : nat -> outcome string
}.
Arguments clock {Config} _ _.
Arguments send_message {Config} _ _.
Arguments json_load {Config} _ _.
Arguments git_rev_parse {Config} _ _.

(** An open order, as [self._bot.open_orders] lists them. *)
Record Order : Type := mkOrder {
  price : Q;
  qty : Q;
  side : string;
  position_side : string
}.

(** The bot the relay reads and controls. *)
Class BotFacade (Config B : Type) : Type := {
  open_orders : B -> list Order;
  position : B -> dict;
  config : B -> Config;
  set_config_value : string -> bool -> B -> B;
  set_config : Config -> B -> B;
  pause : B -> B;
  resume : B -> B;
  (** the state in which the [init_indicators] coroutine leaves the bot *)
  init_indicators : B -> B
}.

(** ** The world and its log *)

Inductive BotCall (Config : Type) : Type :=
| CallSetConfigValue (key : string) (value : bool)
| CallSetConfig (cfg : Config)
| CallPause
| CallResume
| CallInitIndicators.
Arguments CallSetConfigValue {Config} key value.
Arguments CallSetConfig {Config} cfg.
Arguments CallPause {Config}.
Arguments CallResume {Config}.
Arguments CallInitIndicators {Config}.

Inductive Event (Config : Type) : Type :=
| SendMessage (chat_id : string) (text : string)
| Print (text : string)
| Bot (c : BotCall Config).
Arguments SendMessage {Config} chat_id text.
Arguments Print {Config} text.
Arguments Bot {Config} c.

Record World (Config B : Type) : Type := mkWorld {
  (** fields of the [Telegram] object *)
  _chat_id : string;
  config_reload_ts : Q;
  _bot : B;
  (** [init_indicators] tasks on the loop, each with [init_finished] as
      its done-callback *)
  tasks : nat;
  (** calls observed so far, oldest first *)
  log : list (Event Config);
  (** calls made so far to each oracle *)
  n_clock : nat;
  n_send : nat;
  n_load : nat;
  n_git : nat
}.
Arguments mkWorld {Config B}.
Arguments _chat_id {Config B} _.
Arguments config_reload_ts {Config B} _.
Arguments _bot {Config B} _.
Arguments tasks {Config B} _.
Arguments log {Config B} _.
Arguments n_clock {Config B} _.
Arguments n_send {Config B} _.
Arguments n_load {Config B} _.
Arguments n_git {Config B} _.

(** The texts handed to the transport, and the calls made on the bot. *)
Fixpoint sent_texts {Config : Type} (l : list (Event Config)) : list string :=
  match l with
  | [] => []
  | SendMessage _ text :: l' => text :: sent_texts l'
  | _ :: l' => sent_texts l'
  end.

Fixpoint bot_calls {Config : Type} (l : list (Event Config)) : list (BotCall Config) :=
  match l with
  | [] => []
  | Bot c :: l' => c :: bot_calls l'
  | _ :: l' => bot_calls l'
  end.

(** The events [w'] has and [w] has not. *)
Definition since {Config B : Type} (w w' : World Config B) : list (Event Config) :=
  skipn (length (log w)) (log w').

(** ** The handler monad: state and exceptions

    A raise keeps the world as it was when it happened, as in Python. *)

Definition M (Config B A : Type) : Type :=
  World Config B -> outcome A * World Config B.

Section Monad.
Context {Config B : Type}.
Local Abbreviation W := (World Config B).

Definition ret {A : Type} (a : A) : M Config B A := fun w => (Ret a, w).

Definition raise {A : Type} (e : exn) : M Config B A := fun w => (Raise e, w).

Definition bind {A C : Type} (m : M Config B A) (k : A -> M Config B C) : M Config B C :=
  fun w =>
    match m w with
    | (Ret a, w') => k a w'
    | (Raise e, w') => (Raise e, w')
    end.

(** A pure computation that may raise. *)
Definition lift {A : Type} (o : outcome A) : M Config B A := fun w => (o, w).

(** [try: body / except <catches>: handler] *)
Definition try_except {A : Type} (catches : exn -> bool)
           (body handler : M Config B A) : M Config B A :=
  fun w =>
    match body w with
    | (Ret a, w') => (Ret a, w')
    | (Raise e, w') => if catches e then handler w' else (Raise e, w')
    end.

Definition set_config_reload_ts (ts : Q) (w : W) : W :=
  mkWorld (_chat_id w) ts (_bot w) (tasks w) (log w)
          (n_clock w) (n_send w) (n_load w) (n_git w).

Definition set_bot (b : B) (w : W) : W :=
  mkWorld (_chat_id w) (config_reload_ts w) b (tasks w) (log w)
          (n_clock w) (n_send w) (n_load w) (n_git w).

Definition set_tasks (n : nat) (w : W) : W :=
  mkWorld (_chat_id w) (config_reload_ts w) (_bot w) n (log w)
          (n_clock w) (n_send w) (n_load w) (n_git w).

Definition add_event (e : Event Config) (w : W) : W :=
  mkWorld (_chat_id w) (config_reload_ts w) (_bot w) (tasks w) (log w ++ [e])%list
          (n_clock w) (n_send w) (n_load w) (n_git w).

Definition tick_clock (w : W) : W :=
  mkWorld (_chat_id w) (config_reload_ts w) (_bot w) (tasks w) (log w)
          (S (n_clock w)) (n_send w) (n_load w) (n_git w).

Definition tick_send (w : W) : W :=
  mkWorld (_chat_id w) (config_reload_ts w) (_bot w) (tasks w) (log w)
          (n_clock w) (S (n_send w)) (n_load w) (n_git w).

Definition tick_load (w : W) : W :=
  mkWorld (_chat_id w) (config_reload_ts w) (_bot w) (tasks w) (log w)
          (n_clock w) (n_send w) (S (n_load w)) (n_git w).

Definition tick_git (w : W) : W :=
  mkWorld (_chat_id w) (config_reload_ts w) (_bot w) (tasks w) (log w)
          (n_clock w) (n_send w) (n_load w) (S (n_git w)).
End Monad.

Arguments set_config_reload_ts {Config B} ts w /.
Arguments set_bot {Config B} b w /.
Arguments set_tasks {Config B} n w /.
Arguments add_event {Config B} e w /.
Arguments tick_clock {Config B} w /.
Arguments tick_send {Config B} w /.
Arguments tick_load {Config B} w /.
Arguments tick_git {Config B} w /.

Declare Scope monad_scope.
Delimit Scope monad_scope with monad.
Notation "x <- c ;; k" := (bind c (fun x => k))
  (at level 61, c at next level, right associativity) : monad_scope.
Notation "c ;; k" := (bind c (fun _ => k))
  (at level 61, right associativity) : monad_scope.
Local Open Scope monad_scope.

(** A line feed. *)
Definition nl : string := String (Ascii.ascii_of_nat 10) EmptyString.

(** The commands registered with the dispatcher. *)
Inductive Command : Type :=
| balance
| orders
| position_
| graceful_stop
| show_config_
| reload_config
| help.

Section Telegram.
Context {Config B : Type} {facade : BotFacade Config B}.
Variable rt : Runtime Config.
Variable lib : Library Config.
Local Abbreviation W := (World Config B).
Local Abbreviation M := (M Config B).

(** *** Primitive effects *)

(** [self.config_reload_ts] *)
Definition get_config_reload_ts : M Q :=
  fun w => (Ret (config_reload_ts w), w).

(** [self.config_reload_ts = ts] *)
Definition put_config_reload_ts (ts : Q) : M unit :=
  fun w => (Ret tt, set_config_reload_ts ts w).

(** [time()] *)
Definition time : M Q :=
  fun w => (Ret (clock rt (n_clock w)), tick_clock w).

(** [self._updater.bot.send_message(self._chat_id, text=msg, ...)] *)
Definition transport_send (msg : string) : M unit :=
  fun w =>
    let w' := tick_send (add_event (SendMessage (_chat_id w) msg) w) in
    match send_message rt (n_send w) with
    | None => (Ret tt, w')
    | Some e => (Raise e, w')
    end.

(** [print(text)] *)
Definition print (text : string) : M unit :=
  fun w => (Ret tt, add_event (Print text) w).

(** [json.load(open(sys.argv[3]))] *)
Definition load_config : M Config :=
  fun w => (json_load rt (n_load w), tick_load w).

(** The three git calls of [show_config]. *)
Definition git_short_sha : M string :=
  fun w => (git_rev_parse rt (n_git w), tick_git w).

(** Reading an attribute of [self._bot]. *)
Definition bot_get {A : Type} (f : B -> A) : M A :=
  fun w => (Ret (f (_bot w)), w).

(** Calling a method of [self._bot]. *)
Definition bot_call (c : BotCall Config) (f : B -> B) : M unit :=
  fun w => (Ret tt, set_bot (f (_bot w)) (add_event (Bot c) w)).

(** [task = self.loop.create_task(self._bot.init_indicators())] followed
    by [task.add_done_callback(init_finished)]. *)
Definition create_init_task : M unit :=
  fun w => (Ret tt, set_tasks (S (tasks w)) (add_event (Bot CallInitIndicators) w)).

(** *** The methods of [Telegram] *)

Definition send_msg (msg : string) : M unit :=
  try_except (fun _ => true)
    (transport_send msg)
    (print "Failed to send telegram message").

Definition _help : M unit :=
  let msg :=
    "<pre><b>The following commands are available:</b></pre>" ++ nl ++
    "/balance: the equity & wallet balance in the configured account" ++ nl ++
    "/orders: a list of all buy & sell orders currently open" ++ nl ++
    "/graceful_stop: instructs the bot to no longer open new positions and exit gracefully" ++ nl ++
    "/position: information about the current position(s)" ++ nl ++
    "/show_config: the active configuration used" ++ nl ++
    "/reload_config: reload the configuration from disk, based on the file initially used" ++ nl ++
    "/help: This help page" ++ nl in
  send_msg msg.

Definition order_row (order : Order) : row :=
  [PStr (position_side order); PStr (side order); PNum (price order); PNum (qty order)].

(** [for order in open_orders: ... order_table.add_row(...)] *)
Fixpoint add_order_rows (open_orders : list Order) (order_table : PrettyTable)
  : outcome PrettyTable :=
  match open_orders with
  | [] => Ret order_table
  | order :: rest =>
      obind (add_row (order_row order) order_table) (add_order_rows rest)
  end.

Definition get_string (sortby : option string) (t : PrettyTable) : outcome string :=
  obind (get_rows sortby t) (fun rs => Ret (draw_table lib (field_names t) rs)).

Definition _orders : M unit :=
  open_orders <- bot_get open_orders ;;
  let order_table := new_table ["l/s"; "b/s"; "price"; "qty"] in
  order_table <- lift (add_order_rows open_orders order_table) ;;
  table_msg <- lift (get_string (Some "price") order_table) ;;
  let msg := "<pre>" ++ table_msg ++ "</pre>" in
  send_msg msg.

(** One row of the position table: [[label, long[key], shrt[key]]]. *)
Definition add_position_row (label key : string) (long_position shrt_position : pyval)
           (t : PrettyTable) : outcome PrettyTable :=
  obind (getitem long_position key) (fun l =>
  obind (getitem shrt_position key) (fun s =>
  add_row [PStr label; l; s] t)).

Definition position_rows : list (string * string) :=
  [("Size", "size"); ("Price", "price"); ("Leverage", "leverage");
   ("Liq.price", "liquidation_price"); ("Liq.diff", "liq_diff"); ("UPNL", "upnl")].

Fixpoint add_position_rows (rs : list (string * string)) (long_position shrt_position : pyval)
         (t : PrettyTable) : outcome PrettyTable :=
  match rs with
  | [] => Ret t
  | (label, key) :: rs' =>
      obind (add_position_row label key long_position shrt_position t)
            (add_position_rows rs' long_position shrt_position)
  end.

Definition _position : M unit :=
  let position_table := new_table [""; "Long"; "Short"] in
  position <- bot_get position ;;
  if contains "long" position then
    long_position <- lift (getitem (PDict position) "long") ;;
    shrt_position <- lift (getitem (PDict position) "shrt") ;;
    position_table <- lift (add_position_rows position_rows long_position shrt_position
                                              position_table) ;;
    table_msg <- lift (get_string None position_table) ;;
    send_msg ("<pre>" ++ table_msg ++ "</pre>")
  else
    send_msg "Position not initialized yet, please try again later".

Definition _balance : M unit :=
  position <- bot_get position ;;
  msg <- (if truthy position then
            equity <- lift (getitem (PDict position) "equity") ;;
            used_margin <- lift (getitem (PDict position) "used_margin") ;;
            available_margin <- lift (getitem (PDict position) "available_margin") ;;
            ret ("<pre><b>Balance:</b></pre>" ++ nl ++
                 "Equity: " ++ format_value lib equity ++ nl ++
                 "Used margin: " ++ format_value lib used_margin ++ nl ++
                 "Available margin: " ++ format_value lib available_margin)
          else
            ret "Balance not retrieved yet, please try again later") ;;
  send_msg msg.

Definition _graceful_stop : M unit :=
  bot_call (CallSetConfigValue "do_long" false) (set_config_value "do_long" false) ;;
  bot_call (CallSetConfigValue "do_shrt" false) (set_config_value "do_shrt" false) ;;
  send_msg "No longer opening new long or short positions, existing positions will be closed gracefully".

Definition show_config : M unit :=
  sha_short <- try_except (fun _ => true) git_short_sha (ret "UNKNOWN") ;;
  cfg <- bot_get config ;;
  let msg :=
    "<pre><b>Version:</b></pre> " ++ sha_short ++ "," ++ nl ++
    "<pre><b>Config:</b></pre> " ++ nl ++
    json_dumps lib cfg in
  send_msg msg.

Definition log_start : M unit :=
  send_msg "<b>Passivbot started!</b>" ;;
  show_config.

(** The done-callback of the task created by [_reload_config]. *)
Definition init_finished : M unit :=
  bot_call CallResume resume ;;
  log_start ;;
  put_config_reload_ts 0%Q.

(** Lines 100-101: is a reload under way, less than five minutes old? *)
Definition reload_in_progress : M bool :=
  ts <- get_config_reload_ts ;;
  if Qltb 0 ts then
    now <- time ;;
    ret (Qltb (now - ts) (60 * 5))
  else
    ret false.

Definition _reload_config : M unit :=
  in_progress <- reload_in_progress ;;
  if in_progress : bool then
    send_msg "Config reload in progress, please wait"
  else
    now <- time ;;
    put_config_reload_ts now ;;
    send_msg "Reloading config..." ;;
    loaded <- try_except is_Exception
                (cfg <- load_config ;; ret (Some cfg))
                (send_msg "Failed to load config file" ;;
                 put_config_reload_ts 0%Q ;;
                 ret None) ;;
    match loaded with
    | None => ret tt
    | Some cfg =>
        bot_call CallPause pause ;;
        bot_call (CallSetConfig cfg) (set_config cfg) ;;
        create_init_task
    end.

(** *** The dispatcher and the event loop *)

Definition handler (c : Command) : M unit :=
  match c with
  | balance => _balance
  | orders => _orders
  | position_ => _position
  | graceful_stop => _graceful_stop
  | show_config_ => show_config
  | reload_config => _reload_config
  | help => _help
  end.

(** [Telegram.__init__]: the timestamp starts at zero. *)
Definition init (chat_id : string) (bot : B) : W :=
  mkWorld chat_id 0%Q bot O [] O O O O.

(** An [init_indicators] task finishes: the coroutine has run and the
    loop calls [init_finished]. *)
Definition task_done (w : W) : W :=
  snd (init_finished (set_tasks (pred (tasks w)) (set_bot (init_indicators (_bot w)) w))).

(** What the loop can do next: dispatch a command (an error raised by a
    handler is logged by the dispatcher and the loop goes on), finish a
    pending task, or let the bot run its own tasks. *)
Inductive step : W -> W -> Prop :=
| step_command (c : Command) (w : W) :
    step w (snd (handler c w))
| step_task_done (w : W) :
    (0 < tasks w)%nat -> step w (task_done w)
| step_bot (b : B) (w : W) :
    step w (set_bot b w).

Inductive reachable : W -> Prop :=
| reachable_init (chat_id : string) (bot : B) :
    reachable (init chat_id bot)
| reachable_step (w w' : W) :
    reachable w -> step w w' -> reachable w'.

(** [n] invocations of [/reload_config] in a row. *)
Fixpoint reloads (n : nat) (w : W) : W :=
  match n with
  | O => w
  | S n' => reloads n' (snd (_reload_config w))
  end.
End Telegram.

(** ** Observations on the reload guard *)

Section Guard.
Context {Config B : Type} {facade : BotFacade Config B}.
Variable rt : Runtime Config.
Local Abbreviation W := (World Config B).

(** Does [/reload_config] get past lines 100-103 in [w]? *)
Definition accepted (w : W) : bool :=
  match fst (reload_in_progress rt w) with
  | Ret true => false
  | _ => true
  end.

(** The world once the guard has been evaluated. *)
Definition guarded (w : W) : W := snd (reload_in_progress rt w).

(** The reading of the clock that line 104 stores when the guard is
    passed: the time at which the reload attempt starts. *)
Definition acceptance_time (w : W) : Q := clock rt (n_clock (guarded w)).

(** What a failed transport call leaves in the log. *)
Definition failure_report (o : option exn) : list (Event Config) :=
  match o with
  | None => []
  | Some _ => [Print "Failed to send telegram message"]
  end.

(** The text [show_config] sends for a given answer of git and a given
    configuration. *)
Definition config_display (lib : Library Config) (git : outcome string) (cfg : Config)
  : string :=
  "<pre><b>Version:</b></pre> " ++
  match git with Ret sha_short => sha_short | Raise _ => "UNKNOWN" end ++
  "," ++ nl ++ "<pre><b>Config:</b></pre> " ++ nl ++ json_dumps lib cfg.

(** The key on which [get_string(sortby="price")] sorts the row of an
    order. *)
Definition order_key (order : Order) : row := PNum (price order) :: order_row order.

(** Orders in ascending order of price. *)
Definition by_price (l : list Order) : Prop :=
  StronglySorted (fun a b => (price a <= price b)%Q) l.

(** The value a side of the position shows under [key]. *)
Definition cell_of (d : dict) (key : string) : pyval :=
  match lookup key d with
  | Some v => v
  | None => PDict []
  end.

(** The row of the position table for a label and its key. *)
Definition position_row (l s : dict) (lk : string * string) : row :=
  [PStr (fst lk); cell_of l (snd lk); cell_of s (snd lk)].

(** The text [_balance] sends for the three figures. *)
Definition balance_text (lib : Library Config) (equity used_margin available_margin : pyval)
  : string :=
  "<pre><b>Balance:</b></pre>" ++ nl ++
  "Equity: " ++ format_value lib equity ++ nl ++
  "Used margin: " ++ format_value lib used_margin ++ nl ++
  "Available margin: " ++ format_value lib available_margin.

(** Two worlds that differ in their logs at most. *)
Definition alike (w w' : W) : Prop :=
  _chat_id w = _chat_id w' /\ config_reload_ts w = config_reload_ts w' /\
  _bot w = _bot w' /\ tasks w = tasks w' /\
  n_clock w = n_clock w' /\ n_send w = n_send w' /\
  n_load w = n_load w' /\ n_git w = n_git w'.

(** Two computations that return or raise the same from alike worlds, and
    leave alike worlds. *)
Definition blind {A : Type} (m m' : M Config B A) : Prop :=
  forall w w' : W,
    alike w w' ->
    fst (m w) = fst (m' w') /\ alike (snd (m w)) (snd (m' w')).

(** A handler that leaves the reload timestamp alone. *)
Definition keeps_ts {A : Type} (m : M Config B A) : Prop :=
  forall w : W, config_reload_ts (snd (m w)) = config_reload_ts w.
End Guard.

(** ** Shutdown, and observations on the log *)

Section Shutdown.
Context {Config B : Type}.
Local Abbreviation W := (World Config B).

(** [Telegram.exit], the signal handler.  [updater_stop] is what
    [self._updater.stop()] does: [None] when it returns. *)
Definition exit (updater_stop : option exn) : M Config B unit :=
  try_except (fun _ => true)
    (lift (match updater_stop with None => Ret tt | Some e => Raise e end) ;;
     print "Succesfully shutdown telegram bot")
    (print "Failed to shutdown telegram bot. Please make sure it is correctly terminated") ;;
  raise KeyboardInterrupt.

(** An event that is no message, or a message for [chat]. *)
Definition to_chat (chat : string) (e : Event Config) : Prop :=
  match e with
  | SendMessage c _ => c = chat
  | _ => True
  end.

Definition is_pause (c : BotCall Config) : bool :=
  match c with CallPause => true | _ => false end.

Definition is_set_config (c : BotCall Config) : bool :=
  match c with CallSetConfig _ => true | _ => false end.

Definition is_init_indicators (c : BotCall Config) : bool :=
  match c with CallInitIndicators => true | _ => false end.

Definition is_resume (c : BotCall Config) : bool :=
  match c with CallResume => true | _ => false end.

(** How many of the calls logged in [w] satisfy [p]. *)
Definition calls (p : BotCall Config -> bool) (w : W) : nat :=
  length (filter p (bot_calls (log w))).
End Shutdown.

(** ** Runs in which no task completes *)

Section Runs.
Context {Config B : Type} {facade : BotFacade Config B}.
Variable rt : Runtime Config.
Variable lib : Library Config.
Local Abbreviation W := (World Config B).

(** A step of the loop that is not the completion of a task: a command,
    or the bot running its own tasks.  A [/reload_config] among them is
    invoked less than five minutes after [t0]. *)
Inductive window_step (t0 : Q) : W -> W -> Prop :=
| window_command (c : Command) (w : W) :
    (c = reload_config -> (clock rt (n_clock w) - t0 < 300)%Q) ->
    window_step t0 w (snd (handler rt lib c w))
| window_bot (b : B) (w : W) :
    window_step t0 w (set_bot b w).

(** Any number of such steps. *)
Inductive window_run (t0 : Q) : W -> W -> Prop :=
| window_run_refl (w : W) :
    window_run t0 w w
| window_run_step (w w' w'' : W) :
    window_run t0 w w' -> window_step t0 w' w'' -> window_run t0 w w''.
End Runs.

(** ** A small bot and runtimes to run the handlers on *)

Module Demo.

(** A bot that stores what it is told. *)
Record SimpleBot : Type := mkSimpleBot {
  sb_open_orders : list Order;
  sb_position : dict;
  sb_config : string;
  sb_flags : list (string * bool);
  sb_paused : bool
}.

#[export] Instance simple_facade : BotFacade string SimpleBot := {|
  open_orders := sb_open_orders;
  position := sb_position;
  config := sb_config;
  set_config_value := fun key value b =>
    mkSimpleBot (sb_open_orders b) (sb_position b) (sb_config b)
                ((key, value) :: sb_flags b) (sb_paused b);
  set_config := fun cfg b =>
    mkSimpleBot (sb_open_orders b) (sb_position b) cfg (sb_flags b) (sb_paused b);
  pause := fun b =>
    mkSimpleBot (sb_open_orders b) (sb_position b) (sb_config b) (sb_flags b) true;
  resume := fun b =>
    mkSimpleBot (sb_open_orders b) (sb_position b) (sb_config b) (sb_flags b) false;
  init_indicators := fun b => b
|}.

(** Integers print in decimal, other numbers as a fraction. *)
Definition show_Z (z : Z) : string := NilZero.string_of_int (Z.to_int z).

Definition show_value (v : pyval) : string :=
  match v with
  | PNum q =>
      match Qden q with
      | xH => show_Z (Qnum q)
      | d => show_Z (Qnum q) ++ "/" ++ show_Z (Zpos d)
      end
  | PStr s => s
  | PDict _ => "{...}"
  end.

Definition show_row (r : row) : string :=
  String.concat " " (map show_value r).

Definition lib : Library string :=
  mkLibrary string show_value (fun cfg => cfg)
            (fun header rs => String.concat nl (String.concat " " header :: map show_row rs)).

(** The clock is read at 1000 s, then every 100 s. *)
Definition every_100s (k : nat) : Q := inject_Z (1000 + 100 * Z.of_nat k).

(** Everything works. *)
Definition rt_ok : Runtime string :=
  mkRuntime string every_100s (fun _ => None) (fun _ => Ret "{new}") (fun _ => Ret "abc1234").

(** The configuration file cannot be parsed the first time it is read. *)
Definition rt_bad_file : Runtime string :=
  mkRuntime string every_100s (fun _ => None)
            (fun k => match k with O => Raise JSONDecodeError | _ => Ret "{new}" end)
            (fun _ => Ret "abc1234").

(** The transport is down. *)
Definition rt_mute : Runtime string :=
  mkRuntime string every_100s (fun _ => Some NetworkError) (fun _ => Ret "{new}")
            (fun _ => Ret "abc1234").

(** Reading the configuration file is interrupted the first time. *)
Definition rt_interrupted : Runtime string :=
  mkRuntime string every_100s (fun _ => None)
            (fun k => match k with O => Raise KeyboardInterrupt | _ => Ret "{new}" end)
            (fun _ => Ret "abc1234").


Definition two_orders : list Order :=
  [mkOrder 100 1 "buy" "long"; mkOrder 90 2 "sell" "shrt"].

Definition side_fields : dict :=
  [("size", PNum 1); ("price", PNum 100); ("leverage", PNum 3);
   ("liquidation_price", PNum 50); ("liq_diff", PNum (1 # 2)); ("upnl", PNum 0)].

Definition full_position : dict :=
  [("equity", PNum 1000); ("used_margin", PNum 100); ("available_margin", PNum 900);
   ("long", PDict side_fields); ("shrt", PDict side_fields)].

(** The bot before its first position update. *)
Definition fresh_bot : SimpleBot := mkSimpleBot two_orders [] "{old}" [] false.

(** The bot once it has fetched its position. *)
Definition running_bot : SimpleBot := mkSimpleBot two_orders full_position "{old}" [] false.

(** A position holding the two sides but none of the balance figures. *)
Definition sides_only_bot : SimpleBot :=
  mkSimpleBot [] [("long", PDict side_fields); ("shrt", PDict side_fields)] "{old}" [] false.

(** A position in which only the short side has arrived. *)
Definition shrt_only_bot : SimpleBot :=
  mkSimpleBot [] [("shrt", PDict side_fields)] "{old}" [] false.

(** A position whose short side is missing. *)
Definition long_only_bot : SimpleBot :=
  mkSimpleBot [] [("long", PDict side_fields)] "{old}" [] false.

(** A position whose long side holds two of the six fields. *)
Definition thin_long_bot : SimpleBot :=
  mkSimpleBot []
    [("long", PDict [("size", PNum 1); ("price", PNum 100)]); ("shrt", PDict side_fields)]
    "{old}" [] false.

(** A position whose long side is a number. *)
Definition flat_long_bot : SimpleBot :=
  mkSimpleBot [] [("long", PNum 0); ("shrt", PDict side_fields)] "{old}" [] false.

Definition start (b : SimpleBot) : World string SimpleBot := init "chat" b.

(** One reload accepted, its [init_indicators] task pending. *)
Definition reloading : World string SimpleBot := reloads rt_ok 1 (start running_bot).

(** The same after two more invocations, 100 s and 200 s later. *)
Definition waiting : World string SimpleBot := reloads rt_ok 2 reloading.

(** A second reload accepted 300 s after the first, which is still
    pending. *)
Definition overlapping : World string SimpleBot := reloads rt_ok 1 waiting.

(** With the first reload pending: a [/balance], then a [/reload_config]
    100 s after the reload. *)
Definition busy : World string SimpleBot :=
  snd (handler rt_ok lib reload_config (snd (handler rt_ok lib balance reloading))).

(** A reload whose file could not be parsed. *)
Definition failed : World string SimpleBot := reloads rt_bad_file 1 (start running_bot).

(** A reload whose task has completed. *)
Definition completed : World string SimpleBot := task_done rt_ok lib reloading.

End Demo.

(** * Properties *)

Section Properties.
Context {Config B : Type} {facade : BotFacade Config B}.
Variable rt : Runtime Config.
Variable lib : Library Config.
Local Abbreviation W := (World Config B).

(** ** Lists, rationals *)

Lemma skipn_length_app {A : Type} (l l' : list A) :
  skipn (length l) (l ++ l')%list = l'.
Proof. induction l as [|a l IH]; simpl; auto. Qed.

Lemma since_app (w w' : W) (evs : list (Event Config)) :
  log w' = (log w ++ evs)%list -> since w w' = evs.
Proof. intros E. unfold since. rewrite E. apply skipn_length_app. Qed.

Lemma Qltb_lt (x y : Q) : Qltb x y = true <-> (x < y)%Q.
Proof.
  unfold Qltb. rewrite Qlt_alt.
  destruct (x ?= y)%Q; split; congruence.
Qed.

Lemma Qltb_ge (x y : Q) : Qltb x y = false <-> (y <= x)%Q.
Proof.
  rewrite <- Bool.not_true_iff_false, Qltb_lt. split.
  - apply Qnot_lt_le.
  - apply Qle_not_lt.
Qed.

(** Projections of worlds and pairs are computed, nothing else. *)
Ltac fields :=
  cbn [fst snd _chat_id config_reload_ts _bot tasks log n_clock n_send n_load n_git
       set_bot set_tasks set_config_reload_ts add_event
       tick_load tick_clock tick_send tick_git negb obind].

(** Unfolding of the primitive effects. *)
Ltac prims :=
  unfold create_init_task, bot_call, bot_get, print, load_config, git_short_sha,
    time, put_config_reload_ts, get_config_reload_ts, lift, ret, raise; fields.

(** ** [send_msg] *)

Lemma send_msg_run (msg : string) (w : W) :
  send_msg rt msg w =
  (Ret tt,
   mkWorld (_chat_id w) (config_reload_ts w) (_bot w) (tasks w)
           (log w ++ SendMessage (_chat_id w) msg
                  :: failure_report (send_message rt (n_send w)))%list
           (n_clock w) (S (n_send w)) (n_load w) (n_git w)).
Proof.
  unfold send_msg, try_except, transport_send, print.
  destruct (send_message rt (n_send w)) as [e|]; simpl.
  - unfold add_event, tick_send; simpl. rewrite <- app_assoc. reflexivity.
  - reflexivity.
Qed.

(** ** The reload guard *)

Lemma reload_in_progress_run (w : W) :
  reload_in_progress rt w =
  (Ret (negb (accepted rt w)),
   if Qltb 0 (config_reload_ts w) then tick_clock w else w).
Proof.
  unfold accepted, reload_in_progress, get_config_reload_ts, bind, time, ret.
  cbn [fst snd].
  destruct (Qltb 0 (config_reload_ts w)); cbn [fst snd]; [|reflexivity].
  destruct (Qltb _ _); reflexivity.
Qed.

Lemma accepted_false (w : W) :
  accepted rt w = false <->
  (0 < config_reload_ts w /\ clock rt (n_clock w) - config_reload_ts w < 60 * 5)%Q.
Proof.
  unfold accepted, reload_in_progress, get_config_reload_ts, bind, time, ret.
  cbn [fst snd].
  destruct (Qltb 0 (config_reload_ts w)) eqn:E0; cbn [fst snd].
  - apply Qltb_lt in E0.
    destruct (Qltb _ _) eqn:E1.
    + apply Qltb_lt in E1. tauto.
    + apply Qltb_ge in E1. split; [discriminate|].
      intros [_ H]. exfalso. apply (Qlt_not_le _ _ H E1).
  - apply Qltb_ge in E0. split; [discriminate|].
    intros [H _]. exfalso. apply (Qlt_not_le _ _ H E0).
Qed.

Lemma guarded_run (w : W) :
  guarded rt w = if Qltb 0 (config_reload_ts w) then tick_clock w else w.
Proof. unfold guarded. rewrite reload_in_progress_run. reflexivity. Qed.

(** ** The four ways through [_reload_config] *)

Lemma reload_rejected (w : W) :
  accepted rt w = false ->
  _reload_config rt w =
  (Ret tt,
   mkWorld (_chat_id w) (config_reload_ts w) (_bot w) (tasks w)
           (log w ++ SendMessage (_chat_id w) "Config reload in progress, please wait"
                  :: failure_report (send_message rt (n_send w)))%list
           (S (n_clock w)) (S (n_send w)) (n_load w) (n_git w)).
Proof.
  intros Hr. unfold _reload_config, bind.
  rewrite reload_in_progress_run, Hr. cbn [negb].
  apply accepted_false in Hr. destruct Hr as [Hts _].
  apply Qltb_lt in Hts. rewrite Hts.
  rewrite send_msg_run. reflexivity.
Qed.

Lemma reload_load_ok (w : W) (cfg : Config) :
  accepted rt w = true ->
  json_load rt (n_load w) = Ret cfg ->
  _reload_config rt w =
  (Ret tt,
   mkWorld (_chat_id w) (acceptance_time rt w) (set_config cfg (pause (_bot w)))
           (S (tasks w))
           (log w ++ (SendMessage (_chat_id w) "Reloading config..."
                        :: failure_report (send_message rt (n_send w)))
                  ++ [Bot CallPause; Bot (CallSetConfig cfg); Bot CallInitIndicators])%list
           (S (n_clock (guarded rt w))) (S (n_send w)) (S (n_load w)) (n_git w)).
Proof.
  intros Ha Hl. unfold _reload_config, bind, acceptance_time.
  rewrite reload_in_progress_run, Ha. cbn [negb].
  rewrite guarded_run.
  destruct (Qltb 0 (config_reload_ts w));
    unfold time, put_config_reload_ts; cbn [fst snd];
    rewrite send_msg_run;
    unfold try_except, bind, load_config, ret; fields;
    rewrite Hl; fields; prims;
    rewrite <- !app_assoc; reflexivity.
Qed.

Lemma reload_load_failed (w : W) (e : exn) :
  accepted rt w = true ->
  json_load rt (n_load w) = Raise e ->
  is_Exception e = true ->
  _reload_config rt w =
  (Ret tt,
   mkWorld (_chat_id w) 0%Q (_bot w) (tasks w)
           (log w ++ (SendMessage (_chat_id w) "Reloading config..."
                        :: failure_report (send_message rt (n_send w)))
                  ++ SendMessage (_chat_id w) "Failed to load config file"
                        :: failure_report (send_message rt (S (n_send w))))%list
           (S (n_clock (guarded rt w))) (S (S (n_send w))) (S (n_load w)) (n_git w)).
Proof.
  intros Ha Hl He. unfold _reload_config, bind.
  rewrite reload_in_progress_run, Ha. cbn [negb].
  rewrite guarded_run.
  destruct (Qltb 0 (config_reload_ts w));
    unfold time, put_config_reload_ts; cbn [fst snd];
    rewrite send_msg_run;
    unfold try_except, bind, load_config, ret; fields;
    rewrite Hl, He; fields;
    rewrite send_msg_run; fields; prims;
    rewrite <- !app_assoc; reflexivity.
Qed.

Lemma reload_load_escaped (w : W) (e : exn) :
  accepted rt w = true ->
  json_load rt (n_load w) = Raise e ->
  is_Exception e = false ->
  _reload_config rt w =
  (Raise e,
   mkWorld (_chat_id w) (acceptance_time rt w) (_bot w) (tasks w)
           (log w ++ SendMessage (_chat_id w) "Reloading config..."
                  :: failure_report (send_message rt (n_send w)))%list
           (S (n_clock (guarded rt w))) (S (n_send w)) (S (n_load w)) (n_git w)).
Proof.
  intros Ha Hl He. unfold _reload_config, bind, acceptance_time.
  rewrite reload_in_progress_run, Ha. cbn [negb].
  rewrite guarded_run.
  destruct (Qltb 0 (config_reload_ts w));
    unfold time, put_config_reload_ts; cbn [fst snd];
    rewrite send_msg_run;
    unfold try_except, bind, load_config, ret; fields;
    rewrite Hl, He; reflexivity.
Qed.

(** ** [show_config] and the completion callback *)

Lemma show_config_run (w : W) :
  show_config rt lib w =
  (Ret tt,
   mkWorld (_chat_id w) (config_reload_ts w) (_bot w) (tasks w)
           (log w ++ SendMessage (_chat_id w)
                       (config_display lib (git_rev_parse rt (n_git w)) (config (_bot w)))
                  :: failure_report (send_message rt (n_send w)))%list
           (n_clock w) (S (n_send w)) (n_load w) (S (n_git w))).
Proof.
  unfold show_config, bind, try_except, git_short_sha, config_display.
  destruct (git_rev_parse rt (n_git w)) as [sha|e]; prims;
    rewrite send_msg_run; reflexivity.
Qed.

Lemma init_finished_run (w : W) :
  init_finished rt lib w =
  (Ret tt,
   mkWorld (_chat_id w) 0%Q (resume (_bot w)) (tasks w)
           (log w ++ [Bot CallResume]
                  ++ (SendMessage (_chat_id w) "<b>Passivbot started!</b>"
                        :: failure_report (send_message rt (n_send w)))
                  ++ SendMessage (_chat_id w)
                       (config_display lib (git_rev_parse rt (n_git w))
                                       (config (resume (_bot w))))
                        :: failure_report (send_message rt (S (n_send w))))%list
           (n_clock w) (S (S (n_send w))) (n_load w) (S (n_git w))).
Proof.
  unfold init_finished, log_start, bind. prims.
  rewrite send_msg_run. fields. rewrite show_config_run. fields.
  rewrite <- !app_assoc. reflexivity.
Qed.

(** ** Handlers that leave the timestamp alone *)

Lemma keeps_ts_ret {A : Type} (a : A) : keeps_ts (Config:=Config) (B:=B) (ret a).
Proof. intros w. reflexivity. Qed.

Lemma keeps_ts_lift {A : Type} (o : outcome A) : keeps_ts (Config:=Config) (B:=B) (lift o).
Proof. intros w. reflexivity. Qed.

Lemma keeps_ts_bind {A C : Type} (m : M Config B A) (k : A -> M Config B C) :
  keeps_ts m -> (forall a, keeps_ts (k a)) -> keeps_ts (bind m k).
Proof.
  intros Hm Hk w. unfold bind. specialize (Hm w).
  destruct (m w) as [[a|e] w1]; cbn in *.
  - rewrite Hk. exact Hm.
  - exact Hm.
Qed.

Lemma keeps_ts_send_msg (msg : string) : keeps_ts (B:=B) (send_msg rt msg).
Proof. intros w. rewrite send_msg_run. reflexivity. Qed.

Lemma keeps_ts_bot_get {A : Type} (f : B -> A) : keeps_ts (Config:=Config) (bot_get f).
Proof. intros w. reflexivity. Qed.

Lemma keeps_ts_bot_call (c : BotCall Config) (f : B -> B) : keeps_ts (B:=B) (bot_call c f).
Proof. intros w. reflexivity. Qed.

Lemma keeps_ts_show_config : keeps_ts (show_config rt lib).
Proof. intros w. rewrite show_config_run. reflexivity. Qed.

Lemma keeps_ts_if {A : Type} (b : bool) (m1 m2 : M Config B A) :
  keeps_ts m1 -> keeps_ts m2 -> keeps_ts (if b then m1 else m2).
Proof. destruct b; auto. Qed.

Create HintDb frame.
#[local] Hint Resolve keeps_ts_ret keeps_ts_lift keeps_ts_send_msg keeps_ts_bot_get
  keeps_ts_bot_call keeps_ts_show_config : frame.
#[local] Hint Extern 2 (keeps_ts (bind _ _)) => apply keeps_ts_bind; [|intros ?] : frame.
#[local] Hint Extern 2 (keeps_ts (if _ then _ else _)) => apply keeps_ts_if : frame.

Lemma keeps_ts_handler (c : Command) :
  c <> reload_config -> keeps_ts (handler rt lib c).
Proof.
  intros Hc. destruct c; try congruence; clear Hc; cbn [handler].
  - unfold _balance. auto 12 with frame.
  - unfold _orders. auto 12 with frame.
  - unfold _position. auto 12 with frame.
  - unfold _graceful_stop. auto 12 with frame.
  - auto with frame.
  - unfold _help. auto with frame.
Qed.

(** ** Handlers do not see the transport *)

Section Transport.
(** A second runtime that differs from [rt] in its transport at most. *)
Variable rt' : Runtime Config.
Hypothesis same_clock : forall k, clock rt k = clock rt' k.
Hypothesis same_load : forall k, json_load rt k = json_load rt' k.
Hypothesis same_git : forall k, git_rev_parse rt k = git_rev_parse rt' k.

Lemma alike_refl (w : W) : alike w w.
Proof. repeat split. Qed.

Lemma blind_ret {A : Type} (a : A) : blind (Config:=Config) (B:=B) (ret a) (ret a).
Proof. intros w w' Hw. split; [reflexivity|exact Hw]. Qed.

Lemma blind_lift {A : Type} (o : outcome A) :
  blind (Config:=Config) (B:=B) (lift o) (lift o).
Proof. intros w w' Hw. split; [reflexivity|exact Hw]. Qed.

Lemma blind_bind {A C : Type} (m m' : M Config B A) (k k' : A -> M Config B C) :
  blind m m' -> (forall a, blind (k a) (k' a)) -> blind (bind m k) (bind m' k').
Proof.
  intros Hm Hk w w' Hw. unfold bind.
  destruct (Hm w w' Hw) as [Hf Ha].
  destruct (m w) as [[a|e] w1], (m' w') as [[a'|e'] w1']; cbn [fst snd] in *;
    try discriminate.
  - injection Hf as ->. now apply Hk.
  - injection Hf as ->. split; [reflexivity|assumption].
Qed.

Lemma blind_try_except {A : Type} (catches : exn -> bool)
      (body body' handler handler' : M Config B A) :
  blind body body' -> blind handler handler' ->
  blind (try_except catches body handler) (try_except catches body' handler').
Proof.
  intros Hb Hh w w' Hw. unfold try_except.
  destruct (Hb w w' Hw) as [Hf Ha].
  destruct (body w) as [[a|e] w1], (body' w') as [[a'|e'] w1']; cbn [fst snd] in *;
    try discriminate.
  - split; assumption.
  - injection Hf as ->. destruct (catches e').
    + now apply Hh.
    + split; [reflexivity|assumption].
Qed.

Lemma blind_send_msg (msg : string) : blind (B:=B) (send_msg rt msg) (send_msg rt' msg).
Proof.
  intros w w' Hw. unfold send_msg, try_except, transport_send, print, alike in *.
  destruct Hw as (E1 & E2 & E3 & E4 & E5 & E6 & E7 & E8).
  destruct (send_message rt (n_send w)), (send_message rt' (n_send w')); fields;
    repeat split; congruence.
Qed.

Lemma blind_get_ts :
  blind (Config:=Config) (B:=B) get_config_reload_ts get_config_reload_ts.
Proof.
  intros w w' Hw. unfold get_config_reload_ts. fields.
  split; [|exact Hw]. f_equal. apply Hw.
Qed.

Lemma blind_put_ts (ts : Q) :
  blind (Config:=Config) (B:=B) (put_config_reload_ts ts) (put_config_reload_ts ts).
Proof.
  intros w w' Hw. unfold put_config_reload_ts, alike in *. fields.
  destruct Hw as (E1 & E2 & E3 & E4 & E5 & E6 & E7 & E8).
  repeat split; congruence.
Qed.

Lemma blind_time : blind (B:=B) (time rt) (time rt').
Proof.
  intros w w' Hw. unfold time, alike in *. fields.
  destruct Hw as (E1 & E2 & E3 & E4 & E5 & E6 & E7 & E8).
  rewrite E5, same_clock. repeat split; congruence.
Qed.

Lemma blind_load_config : blind (B:=B) (load_config rt) (load_config rt').
Proof.
  intros w w' Hw. unfold load_config, alike in *. fields.
  destruct Hw as (E1 & E2 & E3 & E4 & E5 & E6 & E7 & E8).
  rewrite E7, same_load. repeat split; congruence.
Qed.

Lemma blind_git : blind (B:=B) (git_short_sha rt) (git_short_sha rt').
Proof.
  intros w w' Hw. unfold git_short_sha, alike in *. fields.
  destruct Hw as (E1 & E2 & E3 & E4 & E5 & E6 & E7 & E8).
  rewrite E8, same_git. repeat split; congruence.
Qed.

Lemma blind_bot_get {A : Type} (f : B -> A) :
  blind (Config:=Config) (bot_get f) (bot_get f).
Proof.
  intros w w' Hw. unfold bot_get. fields.
  split; [|exact Hw]. do 2 f_equal. apply Hw.
Qed.

Lemma blind_bot_call (c : BotCall Config) (f : B -> B) :
  blind (bot_call c f) (bot_call c f).
Proof.
  intros w w' Hw. unfold bot_call, alike in *. fields.
  destruct Hw as (E1 & E2 & E3 & E4 & E5 & E6 & E7 & E8).
  repeat split; congruence.
Qed.

Lemma blind_create_init_task :
  blind (Config:=Config) (B:=B) create_init_task create_init_task.
Proof.
  intros w w' Hw. unfold create_init_task, alike in *. fields.
  destruct Hw as (E1 & E2 & E3 & E4 & E5 & E6 & E7 & E8).
  repeat split; congruence.
Qed.

(** Going through a handler, statement by statement. *)
Ltac blindly :=
  repeat first
    [ apply blind_send_msg
    | apply blind_bind; [|intros ?]
    | apply blind_try_except
    | apply blind_ret | apply blind_lift
    | apply blind_get_ts | apply blind_put_ts | apply blind_time
    | apply blind_load_config | apply blind_git
    | apply blind_bot_get | apply blind_bot_call | apply blind_create_init_task
    | match goal with
      | |- blind (if ?b then _ else _) _ => destruct b
      | |- blind (match ?o with Some _ => _ | None => _ end) _ => destruct o
      end ].

Lemma blind_handler (c : Command) : blind (handler rt lib c) (handler rt' lib c).
Proof.
  destruct c; cbn [handler].
  - unfold _balance. blindly.
  - unfold _orders. blindly.
  - unfold _position. blindly.
  - unfold _graceful_stop. blindly.
  - unfold show_config. blindly.
  - unfold _reload_config, reload_in_progress. blindly.
  - unfold _help. blindly.
Qed.
End Transport.

(** C9. Whatever the transport does with a message, [send_msg] returns to
    its caller without raising: the call is made once, a failure is only
    printed, and nothing of the relay's state but the log changes.  No
    handler sees the difference: with another transport and the same clock,
    file and git, every handler returns or raises the same and leaves the
    same timestamp, bot and pending tasks. *)
Theorem send_msg_never_raises (msg : string) (w : W) :
  fst (send_msg rt msg w) = Ret tt /\
  since w (snd (send_msg rt msg w)) =
    SendMessage (_chat_id w) msg :: failure_report (send_message rt (n_send w)) /\
  config_reload_ts (snd (send_msg rt msg w)) = config_reload_ts w /\
  _bot (snd (send_msg rt msg w)) = _bot w /\
  tasks (snd (send_msg rt msg w)) = tasks w /\
  forall (rt' : Runtime Config) (c : Command),
    (forall k, clock rt k = clock rt' k) ->
    (forall k, json_load rt k = json_load rt' k) ->
    (forall k, git_rev_parse rt k = git_rev_parse rt' k) ->
    fst (handler rt lib c w) = fst (handler rt' lib c w) /\
    config_reload_ts (snd (handler rt lib c w)) = config_reload_ts (snd (handler rt' lib c w)) /\
    _bot (snd (handler rt lib c w)) = _bot (snd (handler rt' lib c w)) /\
    tasks (snd (handler rt lib c w)) = tasks (snd (handler rt' lib c w)).
Proof.
  rewrite send_msg_run. fields.
  split; [reflexivity|].
  split; [apply since_app; reflexivity|].
  do 3 (split; [reflexivity|]).
  intros rt' c Hclock Hload Hgit.
  destruct (blind_handler rt' Hclock Hload Hgit c w w (alike_refl w))
    as (Hf & _ & Hts & Hbot & Htasks & _).
  repeat split; assumption.
Qed.

(** ** Reading the log *)

Lemma sent_texts_app (l l' : list (Event Config)) :
  sent_texts (l ++ l')%list = (sent_texts l ++ sent_texts l')%list.
Proof.
  induction l as [|[c t|t|c] l IH]; simpl; auto. now rewrite IH.
Qed.

Lemma bot_calls_app (l l' : list (Event Config)) :
  bot_calls (l ++ l')%list = (bot_calls l ++ bot_calls l')%list.
Proof.
  induction l as [|[c t|t|c] l IH]; simpl; auto. now rewrite IH.
Qed.

Lemma sent_texts_report (o : option exn) :
  sent_texts (failure_report (Config:=Config) o) = [].
Proof. destruct o; reflexivity. Qed.

Lemma bot_calls_report (o : option exn) :
  bot_calls (failure_report (Config:=Config) o) = [].
Proof. destruct o; reflexivity. Qed.

Lemma sent_texts_message (c t : string) (o : option exn) :
  sent_texts (SendMessage c t :: failure_report (Config:=Config) o) = [t].
Proof. simpl. now rewrite sent_texts_report. Qed.

Lemma bot_calls_message (c t : string) (o : option exn) :
  bot_calls (SendMessage c t :: failure_report (Config:=Config) o) = [].
Proof. simpl. apply bot_calls_report. Qed.

(** Reading a log that is given as messages, reports and calls. *)
Ltac read_log :=
  repeat first
    [ rewrite sent_texts_app | rewrite bot_calls_app
    | rewrite sent_texts_message | rewrite bot_calls_message
    | rewrite sent_texts_report | rewrite bot_calls_report ];
  cbn [sent_texts bot_calls app].

Lemma since_trans (w1 w2 w3 : W) (e12 e23 : list (Event Config)) :
  log w2 = (log w1 ++ e12)%list -> log w3 = (log w2 ++ e23)%list ->
  since w1 w3 = (e12 ++ e23)%list.
Proof.
  intros E12 E23. apply since_app. rewrite E23, E12. now rewrite app_assoc.
Qed.

(** ** Accepted invocations *)

Lemma accepted_true (w : W) :
  accepted rt w = true <->
  ~ (0 < config_reload_ts w /\ clock rt (n_clock w) - config_reload_ts w < 300)%Q.
Proof.
  rewrite <- Bool.not_false_iff_true. apply not_iff_compat, accepted_false.
Qed.

Lemma zero_ts_accepted (w : W) :
  config_reload_ts w = 0%Q -> accepted rt w = true.
Proof.
  intros E. apply accepted_true. rewrite E. intros [H _].
  exact (Qlt_irrefl 0 H).
Qed.

(** An accepted invocation announces the reload first. *)
Lemma accepted_announces (w : W) :
  accepted rt w = true ->
  exists rest,
    sent_texts (since w (snd (_reload_config rt w))) = "Reloading config..." :: rest.
Proof.
  intros Ha. destruct (json_load rt (n_load w)) as [cfg|e] eqn:Hl.
  - rewrite (reload_load_ok w cfg Ha Hl). fields.
    erewrite since_app by (fields; reflexivity).
    read_log. eexists. reflexivity.
  - destruct (is_Exception e) eqn:He.
    + rewrite (reload_load_failed w e Ha Hl He). fields.
      erewrite since_app by (fields; reflexivity).
      read_log. eexists. reflexivity.
    + rewrite (reload_load_escaped w e Ha Hl He). fields.
      erewrite since_app by (fields; reflexivity).
      read_log. eexists. reflexivity.
Qed.

(** C2. When [/reload_config] gets past the guard and the configuration
    file cannot be read or parsed, the handler answers 'Failed to load
    config file' after the announcement, sets the timestamp to zero and
    returns; the bot is not called, neither [pause] nor [set_config], and
    the next invocation is accepted. *)
Theorem reload_failed_load (w : W) (e : exn) :
  ~ (0 < config_reload_ts w /\ clock rt (n_clock w) - config_reload_ts w < 300)%Q ->
  json_load rt (n_load w) = Raise e ->
  is_Exception e = true ->
  let w' := snd (_reload_config rt w) in
  fst (_reload_config rt w) = Ret tt /\
  sent_texts (since w w') = ["Reloading config..."; "Failed to load config file"] /\
  bot_calls (since w w') = [] /\
  config_reload_ts w' = 0%Q /\
  _bot w' = _bot w /\
  tasks w' = tasks w /\
  accepted rt w' = true /\
  exists rest,
    sent_texts (since w' (snd (_reload_config rt w'))) = "Reloading config..." :: rest.
Proof.
  intros Hg Hl He w'. apply accepted_true in Hg.
  assert (Hz : config_reload_ts w' = 0%Q).
  { subst w'. now rewrite (reload_load_failed w e Hg Hl He). }
  pose proof (zero_ts_accepted w' Hz) as Ha'.
  pose proof (accepted_announces w' Ha') as Hn.
  repeat split; try assumption; clear Hz Ha' Hn; subst w';
    rewrite (reload_load_failed w e Hg Hl He); fields; try reflexivity;
    erewrite since_app by (fields; reflexivity); read_log; reflexivity.
Qed.

(** C3. When the [init_indicators] task of a reload is done, its callback
    calls [resume] on the bot, sends the banner '<b>Passivbot started!</b>'
    and then the text [/show_config] sends for the resumed bot, and sets the
    timestamp to zero, so that the next [/reload_config] is accepted. *)
Theorem init_finished_resets (w : W) :
  let w' := snd (init_finished rt lib w) in
  let display :=
    config_display lib (git_rev_parse rt (n_git w)) (config (resume (_bot w))) in
  fst (init_finished rt lib w) = Ret tt /\
  since w w' =
    (Bot CallResume
       :: (SendMessage (_chat_id w) "<b>Passivbot started!</b>"
             :: failure_report (send_message rt (n_send w)))
       ++ SendMessage (_chat_id w) display
             :: failure_report (send_message rt (S (n_send w))))%list /\
  bot_calls (since w w') = [CallResume] /\
  sent_texts (since w w') = ["<b>Passivbot started!</b>"; display] /\
  (forall v : W,
      _bot v = resume (_bot w) -> n_git v = n_git w ->
      sent_texts (since v (snd (show_config rt lib v))) = [display]) /\
  config_reload_ts w' = 0%Q /\
  config_reload_ts (task_done rt lib w) = 0%Q /\
  accepted rt w' = true /\
  exists rest,
    sent_texts (since w' (snd (_reload_config rt w'))) = "Reloading config..." :: rest.
Proof.
  intros w' display.
  assert (Hz : config_reload_ts w' = 0%Q).
  { subst w'. now rewrite init_finished_run. }
  pose proof (zero_ts_accepted w' Hz) as Ha'.
  pose proof (accepted_announces w' Ha') as Hn.
  assert (Hs : since w w' =
    (Bot CallResume
       :: (SendMessage (_chat_id w) "<b>Passivbot started!</b>"
             :: failure_report (send_message rt (n_send w)))
       ++ SendMessage (_chat_id w) display
             :: failure_report (send_message rt (S (n_send w))))%list).
  { subst w' display. rewrite init_finished_run. fields.
    apply since_app. fields. reflexivity. }
  split; [now rewrite init_finished_run|].
  split; [exact Hs|].
  split; [rewrite Hs; cbn [bot_calls]; read_log; reflexivity|].
  split; [rewrite Hs; cbn [sent_texts]; read_log; reflexivity|].
  split.
  { intros v Hb Hg. rewrite show_config_run. fields.
    erewrite since_app by (fields; reflexivity).
    read_log. subst display. now rewrite Hb, Hg. }
  split; [exact Hz|].
  split; [unfold task_done; now rewrite init_finished_run|].
  split; assumption.
Qed.

(** C6. [/graceful_stop] calls [set_config_value('do_long', False)] and
    [set_config_value('do_shrt', False)] on the bot, then sends its
    confirmation; it makes no other call on the bot and touches neither the
    timestamp nor the pending tasks. *)
Theorem graceful_stop_calls (w : W) :
  let w' := snd (_graceful_stop rt w) in
  fst (_graceful_stop rt w) = Ret tt /\
  since w w' =
    (Bot (CallSetConfigValue "do_long" false)
       :: Bot (CallSetConfigValue "do_shrt" false)
       :: SendMessage (_chat_id w)
            "No longer opening new long or short positions, existing positions will be closed gracefully"
       :: failure_report (send_message rt (n_send w)))%list /\
  bot_calls (since w w') =
    [CallSetConfigValue "do_long" false; CallSetConfigValue "do_shrt" false] /\
  _bot w' = set_config_value "do_shrt" false (set_config_value "do_long" false (_bot w)) /\
  config_reload_ts w' = config_reload_ts w /\
  tasks w' = tasks w.
Proof.
  intros w'. subst w'. unfold _graceful_stop, bind. prims.
  rewrite send_msg_run. fields.
  erewrite since_app by (fields; rewrite <- !app_assoc; reflexivity).
  cbn [app bot_calls]. rewrite bot_calls_report. repeat split.
Qed.

(** ** The timestamp is never negative *)

Section Clock.
(** Seconds since the epoch: the clock reads a positive number. *)
Hypothesis clock_positive : forall k, (0 < clock rt k)%Q.

Lemma reload_ts (w : W) :
  (0 <= config_reload_ts w)%Q ->
  (0 <= config_reload_ts (snd (_reload_config rt w)))%Q.
Proof.
  intros H0. destruct (accepted rt w) eqn:Ha.
  - destruct (json_load rt (n_load w)) as [cfg|e] eqn:Hl.
    + rewrite (reload_load_ok w cfg Ha Hl). fields.
      apply Qlt_le_weak, clock_positive.
    + destruct (is_Exception e) eqn:He.
      * rewrite (reload_load_failed w e Ha Hl He). fields. apply Qle_refl.
      * rewrite (reload_load_escaped w e Ha Hl He). fields.
        apply Qlt_le_weak, clock_positive.
  - rewrite (reload_rejected w Ha). exact H0.
Qed.

Lemma step_ts (w w' : W) :
  step rt lib w w' ->
  (0 <= config_reload_ts w)%Q -> (0 <= config_reload_ts w')%Q.
Proof.
  intros Hs H0. destruct Hs as [c w|w Ht|b w].
  - assert (Hk : forall c', c' <> reload_config ->
                config_reload_ts (snd (handler rt lib c' w)) = config_reload_ts w).
    { intros c' Hc. now apply keeps_ts_handler. }
    destruct c; try (rewrite Hk by discriminate; exact H0).
    now apply reload_ts.
  - unfold task_done. rewrite init_finished_run. fields. apply Qle_refl.
  - exact H0.
Qed.

Lemma reachable_ts (w : W) :
  reachable rt lib w -> (0 <= config_reload_ts w)%Q.
Proof.
  induction 1 as [c b|w w' _ IH Hs].
  - apply Qle_refl.
  - exact (step_ts w w' Hs IH).
Qed.

(** In a reachable state, a timestamp that is not zero is positive. *)
Lemma reachable_ts_positive (w : W) :
  reachable rt lib w -> ~ (config_reload_ts w == 0)%Q -> (0 < config_reload_ts w)%Q.
Proof.
  intros Hr Hn. apply reachable_ts in Hr.
  apply Qle_lteq in Hr. destruct Hr as [Hlt|Heq]; [exact Hlt|].
  exfalso. apply Hn. symmetry. exact Heq.
Qed.

(** ** Invocations in a row *)

(** As long as every invocation finds less than five minutes elapsed since
    the timestamp was set, all of them are rejected. *)
Lemma reloads_rejected (n : nat) :
  forall w : W,
    (0 < config_reload_ts w)%Q ->
    (forall j, (j < n)%nat ->
               (clock rt (n_clock w + j) - config_reload_ts w < 60 * 5)%Q) ->
    config_reload_ts (reloads rt n w) = config_reload_ts w /\
    _bot (reloads rt n w) = _bot w /\
    tasks (reloads rt n w) = tasks w /\
    n_clock (reloads rt n w) = (n_clock w + n)%nat /\
    n_load (reloads rt n w) = n_load w /\
    exists evs,
      log (reloads rt n w) = (log w ++ evs)%list /\
      sent_texts evs = repeat "Config reload in progress, please wait" n /\
      bot_calls evs = [].
Proof.
  induction n as [|n IH]; intros w Hts Hwin.
  - cbn [reloads]. rewrite Nat.add_0_r. repeat split.
    exists []. rewrite app_nil_r. repeat split.
  - cbn [reloads].
    assert (Ha : accepted rt w = false).
    { apply accepted_false. split; [exact Hts|].
      specialize (Hwin O (Nat.lt_0_succ n)). now rewrite Nat.add_0_r in Hwin. }
    rewrite (reload_rejected w Ha). fields.
    match goal with |- context [reloads rt n ?x] => set (w1 := x) end.
    destruct (IH w1) as (E1 & E2 & E3 & E4 & E5 & evs & E6 & E7 & E8).
    + exact Hts.
    + intros j Hj. subst w1. fields.
      specialize (Hwin (S j) (proj1 (Nat.succ_lt_mono j n) Hj)).
      now rewrite Nat.add_succ_r in Hwin.
    + rewrite E1, E2, E3, E4, E5. subst w1. fields. repeat split.
      * now rewrite Nat.add_succ_r.
      * eexists. split.
        -- rewrite E6. fields. rewrite <- app_assoc. reflexivity.
        -- read_log. rewrite E7, E8. split; reflexivity.
Qed.

(** Invocations that are all rejected leave the timestamp as it was. *)
Lemma rejected_run_ts (n : nat) :
  forall w : W,
    (forall j, (j < n)%nat -> accepted rt (reloads rt j w) = false) ->
    config_reload_ts (reloads rt n w) = config_reload_ts w.
Proof.
  induction n as [|n IH]; intros w Hrej; [reflexivity|].
  cbn [reloads]. rewrite IH.
  - pose proof (Hrej O (Nat.lt_0_succ n)) as H0. cbn [reloads] in H0.
    now rewrite (reload_rejected w H0).
  - intros j Hj. apply (Hrej (S j)). now apply -> Nat.succ_lt_mono.
Qed.

(** C5, as the code has it.  Between the acceptance of a reload attempt
    that loaded its file and the acceptance of the next invocation, with
    only rejected invocations in between, at least five minutes elapse.
    More generally the guard lets an invocation through only if the
    timestamp is not positive or at least five minutes old. *)
Theorem reload_cooldown :
  (forall (w : W) (cfg : Config) (n : nat),
      accepted rt w = true ->
      json_load rt (n_load w) = Ret cfg ->
      let w1 := snd (_reload_config rt w) in
      (forall j, (j < n)%nat -> accepted rt (reloads rt j w1) = false) ->
      accepted rt (reloads rt n w1) = true ->
      (300 <= clock rt (n_clock (reloads rt n w1)) - acceptance_time rt w)%Q) /\
  (forall w : W,
      (0 < config_reload_ts w)%Q ->
      accepted rt w = true ->
      (300 <= clock rt (n_clock w) - config_reload_ts w)%Q).
Proof.
  assert (Hone : forall w : W,
             (0 < config_reload_ts w)%Q -> accepted rt w = true ->
             (300 <= clock rt (n_clock w) - config_reload_ts w)%Q).
  { intros w Hts Ha. apply accepted_true in Ha.
    apply Qnot_lt_le. intros Hlt. apply Ha. split; assumption. }
  split; [|exact Hone].
  intros w cfg n Ha Hl w1 Hrej Hacc.
  assert (E1 : config_reload_ts w1 = acceptance_time rt w).
  { subst w1. now rewrite (reload_load_ok w cfg Ha Hl). }
  rewrite <- E1, <- (rejected_run_ts n w1 Hrej).
  apply Hone; [|exact Hacc].
  rewrite (rejected_run_ts n w1 Hrej), E1. apply clock_positive.
Qed.
End Clock.

(** ** The table of open orders *)

Lemma add_order_rows_run (os : list Order) :
  forall t : PrettyTable,
    length (field_names t) = 4%nat ->
    add_order_rows os t =
    Ret {| field_names := field_names t; rows := (rows t ++ map order_row os)%list |}.
Proof.
  induction os as [|o os IH]; intros t Ht; cbn [add_order_rows map].
  - rewrite app_nil_r. now destruct t.
  - unfold add_row. cbn [order_row length]. rewrite Ht. cbn [Nat.eqb obind].
    rewrite IH by exact Ht. cbn [field_names rows].
    now rewrite <- app_assoc.
Qed.

Lemma decorate_order_rows (os : list Order) :
  map_outcome (decorate 2) (map order_row os) = Ret (map order_key os).
Proof.
  induction os as [|o os IH]; [reflexivity|].
  cbn [map map_outcome]. rewrite IH. reflexivity.
Qed.

Lemma undecorate_order_keys (os : list Order) :
  map undecorate (map order_key os) = map order_row os.
Proof. rewrite map_map. reflexivity. Qed.

(** Comparing the keys of two orders never raises, and agrees with the
    order of their prices. *)
Lemma order_key_lt (a b : Order) :
  exists r : bool,
    list_lt (order_key a) (order_key b) = Ret r /\
    (r = true -> (price a <= price b)%Q) /\
    (r = false -> (price b <= price a)%Q).
Proof.
  unfold order_key, order_row. cbn [list_lt py_compare obind].
  destruct (price a ?= price b)%Q eqn:Ep.
  - apply Qeq_alt in Ep.
    assert (Hab : (price a <= price b)%Q) by (rewrite Ep; apply Qle_refl).
    assert (Hba : (price b <= price a)%Q) by (rewrite Ep; apply Qle_refl).
    destruct (String.compare (position_side a) (position_side b));
      [|eexists; repeat split; eauto..].
    destruct (String.compare (side a) (side b));
      [|eexists; repeat split; eauto..].
    destruct (qty a ?= qty b)%Q; eexists; repeat split; eauto.
  - apply Qlt_alt in Ep. exists true. repeat split.
    + intros _. now apply Qlt_le_weak.
    + discriminate.
  - apply Qgt_alt in Ep. exists false. repeat split.
    + discriminate.
    + intros _. now apply Qlt_le_weak.
Qed.

Lemma by_price_cons (a : Order) (l : list Order) :
  by_price l -> Forall (fun b => (price a <= price b)%Q) l -> by_price (a :: l).
Proof. intros. now constructor. Qed.

Lemma insort_order (x : Order) (acc : list Order) :
  by_price acc ->
  exists acc' : list Order,
    insort (order_key x) (map order_key acc) = Ret (map order_key acc') /\
    Permutation (acc ++ [x]) acc' /\
    by_price acc'.
Proof.
  induction acc as [|y acc IH]; intros Hs.
  - exists [x]. repeat split; [apply Permutation_refl|].
    apply by_price_cons; constructor.
  - inversion Hs as [|? ? Hs' Hy]; subst.
    cbn [map insort].
    destruct (order_key_lt x y) as (r & Er & Ht & Hf). rewrite Er. cbn [obind].
    destruct r.
    + exists (x :: y :: acc). repeat split.
      * change (x :: y :: acc) with (([x] ++ (y :: acc))%list).
        apply Permutation_app_comm.
      * apply by_price_cons; [exact Hs|].
        specialize (Ht eq_refl). constructor; [exact Ht|].
        eapply Forall_impl; [|exact Hy].
        intros b Hb. eapply Qle_trans; eassumption.
    + destruct (IH Hs') as (acc' & Ei & Hp & Hs'').
      rewrite Ei. cbn [obind].
      exists (y :: acc'). repeat split.
      * cbn [app]. now constructor.
      * apply by_price_cons; [exact Hs''|].
        eapply Permutation_Forall; [exact Hp|].
        apply Forall_app. split; [exact Hy|].
        constructor; [exact (Hf eq_refl)|constructor].
Qed.

Lemma sort_orders_from (os : list Order) :
  forall acc : list Order,
    by_price acc ->
    exists sorted : list Order,
      fold_left (fun a x => obind a (insort x)) (map order_key os)
                (Ret (map order_key acc)) = Ret (map order_key sorted) /\
      Permutation (acc ++ os) sorted /\
      by_price sorted.
Proof.
  induction os as [|o os IH]; intros acc Hs.
  - exists acc. rewrite app_nil_r. repeat split; [apply Permutation_refl|exact Hs].
  - cbn [map fold_left obind].
    destruct (insort_order o acc Hs) as (acc' & Ei & Hp & Hs').
    rewrite Ei.
    destruct (IH acc' Hs') as (sorted & Ef & Hp' & Hs'').
    exists sorted. repeat split; [exact Ef| |exact Hs''].
    eapply Permutation_trans; [|exact Hp'].
    change (o :: os) with (([o] ++ os)%list). rewrite app_assoc.
    now apply Permutation_app_tail.
Qed.

Lemma sort_orders (os : list Order) :
  exists sorted : list Order,
    sort (map order_key os) = Ret (map order_key sorted) /\
    Permutation os sorted /\
    by_price sorted.
Proof.
  destruct (sort_orders_from os [] (SSorted_nil _)) as (sorted & Ef & Hp & Hs).
  exists sorted. repeat split; assumption.
Qed.

Lemma orders_run (w : W) :
  exists sorted : list Order,
    Permutation (open_orders (_bot w)) sorted /\
    by_price sorted /\
    sort (map order_key (open_orders (_bot w))) = Ret (map order_key sorted) /\
    _orders rt lib w =
    send_msg rt ("<pre>" ++ draw_table lib ["l/s"; "b/s"; "price"; "qty"]
                                       (map order_row sorted) ++ "</pre>") w.
Proof.
  destruct (sort_orders (open_orders (_bot w))) as (sorted & Es & Hp & Hs).
  exists sorted. repeat split; try assumption.
  unfold _orders, bind, bot_get, lift. fields.
  rewrite add_order_rows_run by reflexivity. cbn [new_table rows field_names app].
  unfold get_string, get_rows. cbn [field_names rows index String.eqb Ascii.eqb Bool.eqb obind].
  rewrite decorate_order_rows. cbn [obind]. rewrite Es. cbn [obind].
  now rewrite undecorate_order_keys.
Qed.

(** C7. [/orders] sends one table with a row [position_side, side, price,
    qty] for each open order, the rows in ascending order of price.  For
    the orders [{price: 100, qty: 1, side: buy, position_side: long}] and
    [{price: 90, qty: 2, side: sell, position_side: shrt}] the row of
    price 90 comes first. *)
Theorem orders_sorted_by_price (w : W) :
  (exists sorted : list Order,
      Permutation (open_orders (_bot w)) sorted /\
      by_price sorted /\
      fst (_orders rt lib w) = Ret tt /\
      since w (snd (_orders rt lib w)) =
        SendMessage (_chat_id w)
          ("<pre>" ++ draw_table lib ["l/s"; "b/s"; "price"; "qty"]
                                 (map order_row sorted) ++ "</pre>")
          :: failure_report (send_message rt (n_send w))) /\
  (open_orders (_bot w) = [mkOrder 100 1 "buy" "long"; mkOrder 90 2 "sell" "shrt"] ->
   sent_texts (since w (snd (_orders rt lib w))) =
     ["<pre>" ++ draw_table lib ["l/s"; "b/s"; "price"; "qty"]
                            [[PStr "shrt"; PStr "sell"; PNum 90; PNum 2];
                             [PStr "long"; PStr "buy"; PNum 100; PNum 1]] ++ "</pre>"]).
Proof.
  destruct (orders_run w) as (sorted & Hp & Hs & Es & Er).
  split.
  - exists sorted. rewrite Er, send_msg_run. fields.
    repeat split; try assumption.
    apply since_app. reflexivity.
  - intros Eo. rewrite Er, send_msg_run. fields.
    erewrite since_app by (fields; reflexivity).
    read_log. rewrite Eo in Es.
    assert (E2 : map order_key sorted =
                 map order_key [mkOrder 90 2 "sell" "shrt"; mkOrder 100 1 "buy" "long"]).
    { assert (Ec : sort (map order_key [mkOrder 100 1 "buy" "long"; mkOrder 90 2 "sell" "shrt"])
                   = Ret (map order_key [mkOrder 90 2 "sell" "shrt"; mkOrder 100 1 "buy" "long"]))
        by reflexivity.
      rewrite Ec in Es. now inversion Es. }
    apply (f_equal (map undecorate)) in E2.
    rewrite !undecorate_order_keys in E2. rewrite E2. reflexivity.
Qed.

(** ** [/balance] *)

Lemma truthy_true (d : dict) : truthy d = true <-> d <> [].
Proof. destruct d; simpl; split; congruence. Qed.

Lemma getitem_some (d : dict) (k : string) (v : pyval) :
  lookup k d = Some v -> getitem (PDict d) k = Ret v.
Proof. intros E. unfold getitem. now rewrite E. Qed.

Lemma getitem_none (d : dict) (k : string) :
  lookup k d = None -> getitem (PDict d) k = Raise (KeyError k).
Proof. intros E. unfold getitem. now rewrite E. Qed.

(** C8, as the code has it.  On an empty position [/balance] answers
    'Balance not retrieved yet, please try again later' and does not
    raise.  On a position that is not empty and holds [equity],
    [used_margin] and [available_margin] it reports the three figures.  On
    a position that is not empty and lacks one of them it raises the
    [KeyError] of the first one missing, before anything is sent. *)
Theorem balance_reply (w : W) :
  (position (_bot w) = [] ->
   fst (_balance rt lib w) = Ret tt /\
   since w (snd (_balance rt lib w)) =
     SendMessage (_chat_id w) "Balance not retrieved yet, please try again later"
       :: failure_report (send_message rt (n_send w))) /\
  (forall equity used_margin available_margin : pyval,
      position (_bot w) <> [] ->
      lookup "equity" (position (_bot w)) = Some equity ->
      lookup "used_margin" (position (_bot w)) = Some used_margin ->
      lookup "available_margin" (position (_bot w)) = Some available_margin ->
      fst (_balance rt lib w) = Ret tt /\
      since w (snd (_balance rt lib w)) =
        SendMessage (_chat_id w) (balance_text lib equity used_margin available_margin)
          :: failure_report (send_message rt (n_send w))) /\
  (position (_bot w) <> [] ->
   (lookup "equity" (position (_bot w)) = None \/
    lookup "used_margin" (position (_bot w)) = None \/
    lookup "available_margin" (position (_bot w)) = None) ->
   exists k : string,
     In k ["equity"; "used_margin"; "available_margin"] /\
     lookup k (position (_bot w)) = None /\
     _balance rt lib w = (Raise (KeyError k), w)).
Proof.
  split; [|split].
  - intros Ee. unfold _balance, bind, bot_get. fields. rewrite Ee. cbn [truthy].
    unfold ret. rewrite send_msg_run. fields. split; [reflexivity|].
    apply since_app. reflexivity.
  - intros e u a Hne He Hu Ha. apply truthy_true in Hne.
    unfold _balance, bind, bot_get, lift, ret. fields. rewrite Hne.
    rewrite (getitem_some _ _ _ He), (getitem_some _ _ _ Hu), (getitem_some _ _ _ Ha).
    rewrite send_msg_run. fields. split; [reflexivity|].
    apply since_app. reflexivity.
  - intros Hne Hmiss. apply truthy_true in Hne.
    unfold _balance, bind, bot_get, lift, ret. fields. rewrite Hne.
    destruct (lookup "equity" (position (_bot w))) as [e|] eqn:He.
    + rewrite (getitem_some _ _ _ He).
      destruct (lookup "used_margin" (position (_bot w))) as [u|] eqn:Hu.
      * rewrite (getitem_some _ _ _ Hu).
        destruct (lookup "available_margin" (position (_bot w))) as [a|] eqn:Ha.
        -- exfalso. destruct Hmiss as [H|[H|H]]; discriminate.
        -- rewrite (getitem_none _ _ Ha).
           exists "available_margin". repeat split; simpl; auto.
      * rewrite (getitem_none _ _ Hu).
        exists "used_margin". repeat split; simpl; auto.
    + rewrite (getitem_none _ _ He).
      exists "equity". repeat split; simpl; auto.
Qed.

(** ** [/position] *)

Lemma contains_true (k : string) (d : dict) :
  contains k d = true <-> exists v, lookup k d = Some v.
Proof.
  unfold contains. destruct (lookup k d) as [v|]; split.
  - intros _. now exists v.
  - reflexivity.
  - discriminate.
  - intros [v Hv]. discriminate.
Qed.

(** All rows are added when both sides hold every key. *)
Lemma add_position_rows_run (l s : dict) (rs : list (string * string)) :
  forall t : PrettyTable,
    length (field_names t) = 3%nat ->
    (forall lk, In lk rs -> lookup (snd lk) l <> None /\ lookup (snd lk) s <> None) ->
    add_position_rows rs (PDict l) (PDict s) t =
    Ret {| field_names := field_names t;
           rows := (rows t ++ map (position_row l s) rs)%list |}.
Proof.
  induction rs as [|[label key] rs IH]; intros t Ht Hall; cbn [add_position_rows map].
  - rewrite app_nil_r. now destruct t.
  - destruct (Hall (label, key) (or_introl eq_refl)) as [Hl Hs]. cbn [snd] in Hl, Hs.
    unfold add_position_row, position_row, cell_of. cbn [fst snd].
    destruct (lookup key l) as [vl|] eqn:El; [|congruence].
    destruct (lookup key s) as [vs|] eqn:Es; [|congruence].
    rewrite (getitem_some _ _ _ El), (getitem_some _ _ _ Es). cbn [obind].
    unfold add_row. cbn [length]. rewrite Ht. cbn [Nat.eqb obind].
    rewrite IH.
    + cbn [field_names rows]. now rewrite <- app_assoc.
    + exact Ht.
    + intros lk Hin. apply Hall. now right.
Qed.

(** The first key that a side lacks stops the table with its [KeyError]. *)
Lemma add_position_rows_missing (l s : dict) (rs : list (string * string)) :
  forall t : PrettyTable,
    length (field_names t) = 3%nat ->
    (exists lk, In lk rs /\ (lookup (snd lk) l = None \/ lookup (snd lk) s = None)) ->
    exists k : string,
      In k (map snd rs) /\
      (lookup k l = None \/ lookup k s = None) /\
      add_position_rows rs (PDict l) (PDict s) t = Raise (KeyError k).
Proof.
  induction rs as [|[label key] rs IH]; intros t Ht (lk & Hin & Hmiss).
  - destruct Hin.
  - cbn [add_position_rows map snd]. unfold add_position_row.
    destruct (lookup key l) as [vl|] eqn:El.
    + rewrite (getitem_some _ _ _ El). cbn [obind].
      destruct (lookup key s) as [vs|] eqn:Es.
      * rewrite (getitem_some _ _ _ Es). cbn [obind].
        unfold add_row. cbn [length]. rewrite Ht. cbn [Nat.eqb obind].
        destruct Hin as [Heq|Hin].
        { subst lk. cbn [snd] in Hmiss. destruct Hmiss; congruence. }
        destruct (IH {| field_names := field_names t;
                        rows := (rows t ++ [[PStr label; vl; vs]])%list |})
          as (k & Hk & Hm & Er).
        -- exact Ht.
        -- exists lk. split; assumption.
        -- exists k. repeat split; [now right|exact Hm|exact Er].
      * rewrite (getitem_none _ _ Es). cbn [obind].
        exists key. repeat split; [now left|now right].
    + rewrite (getitem_none _ _ El). cbn [obind].
      exists key. repeat split; [now left|now left].
Qed.

(** C10. [/position] looks at the key [long] only.  Without it the answer
    is 'Position not initialized yet, please try again later', whatever
    else the mapping holds.  With it, the entry [shrt] and the six fields
    of both sides are read without any check: a missing [shrt], or a field
    missing from a side, raises a [KeyError] that nothing catches, and
    nothing is sent; with everything there, the table of six rows is
    sent. *)
Theorem position_reply (w : W) :
  (contains "long" (position (_bot w)) = false ->
   fst (_position rt lib w) = Ret tt /\
   since w (snd (_position rt lib w)) =
     SendMessage (_chat_id w) "Position not initialized yet, please try again later"
       :: failure_report (send_message rt (n_send w))) /\
  (forall long_position : pyval,
      lookup "long" (position (_bot w)) = Some long_position ->
      lookup "shrt" (position (_bot w)) = None ->
      _position rt lib w = (Raise (KeyError "shrt"), w)) /\
  (forall l s : dict,
      lookup "long" (position (_bot w)) = Some (PDict l) ->
      lookup "shrt" (position (_bot w)) = Some (PDict s) ->
      (exists k, In k ["size"; "price"; "leverage"; "liquidation_price"; "liq_diff"; "upnl"] /\
                 (lookup k l = None \/ lookup k s = None)) ->
      exists k : string,
        In k ["size"; "price"; "leverage"; "liquidation_price"; "liq_diff"; "upnl"] /\
        (lookup k l = None \/ lookup k s = None) /\
        _position rt lib w = (Raise (KeyError k), w)) /\
  (forall l s : dict,
      lookup "long" (position (_bot w)) = Some (PDict l) ->
      lookup "shrt" (position (_bot w)) = Some (PDict s) ->
      (forall k, In k ["size"; "price"; "leverage"; "liquidation_price"; "liq_diff"; "upnl"] ->
                 lookup k l <> None /\ lookup k s <> None) ->
      fst (_position rt lib w) = Ret tt /\
      since w (snd (_position rt lib w)) =
        SendMessage (_chat_id w)
          ("<pre>" ++ draw_table lib [""; "Long"; "Short"]
                                 (map (position_row l s) position_rows) ++ "</pre>")
          :: failure_report (send_message rt (n_send w))).
Proof.
  split; [|split; [|split]].
  - intros Hc. unfold _position, bind, bot_get. fields. rewrite Hc.
    rewrite send_msg_run. fields. split; [reflexivity|].
    apply since_app. reflexivity.
  - intros lp Hl Hs.
    assert (Hc : contains "long" (position (_bot w)) = true)
      by (apply contains_true; eauto).
    unfold _position, bind, bot_get, lift. fields. rewrite Hc.
    rewrite (getitem_some _ _ _ Hl), (getitem_none _ _ Hs). reflexivity.
  - intros l s Hl Hs (k & Hk & Hm).
    assert (Hc : contains "long" (position (_bot w)) = true)
      by (apply contains_true; eauto).
    destruct (add_position_rows_missing l s position_rows
                (new_table [""; "Long"; "Short"]) eq_refl) as (k' & Hk' & Hm' & Er).
    { cbn [In] in Hk.
      repeat (destruct Hk as [Hk|Hk];
              [subst k; eexists (_, _); split; [|exact Hm]; cbn; tauto|]).
      destruct Hk. }
    exists k'. repeat split; [exact Hk'|exact Hm'|].
    unfold _position, bind, bot_get, lift. fields. rewrite Hc.
    rewrite (getitem_some _ _ _ Hl), (getitem_some _ _ _ Hs), Er. reflexivity.
  - intros l s Hl Hs Hall.
    assert (Hc : contains "long" (position (_bot w)) = true)
      by (apply contains_true; eauto).
    unfold _position, bind, bot_get, lift. fields. rewrite Hc.
    rewrite (getitem_some _ _ _ Hl), (getitem_some _ _ _ Hs).
    rewrite add_position_rows_run; [|reflexivity|].
    + unfold get_string, get_rows. cbn [new_table field_names rows app obind].
      rewrite send_msg_run. fields. split; [reflexivity|].
      apply since_app. reflexivity.
    + intros [label key] Hin. cbn [snd]. apply Hall.
      cbn in Hin. cbn [In].
      repeat (destruct Hin as [Hin|Hin]; [inversion Hin; tauto|]).
      destruct Hin.
Qed.

(** ** The configuration display, the start-up announcement, shutdown *)


Lemma log_start_run (w : W) :
  log_start rt lib w =
  (Ret tt,
   mkWorld (_chat_id w) (config_reload_ts w) (_bot w) (tasks w)
           (log w ++ (SendMessage (_chat_id w) "<b>Passivbot started!</b>"
                        :: failure_report (send_message rt (n_send w)))
                  ++ SendMessage (_chat_id w)
                       (config_display lib (git_rev_parse rt (n_git w)) (config (_bot w)))
                        :: failure_report (send_message rt (S (n_send w))))%list
           (n_clock w) (S (S (n_send w))) (n_load w) (S (n_git w))).
Proof.
  unfold log_start, bind. rewrite send_msg_run. fields.
  rewrite show_config_run. fields. rewrite <- !app_assoc. reflexivity.
Qed.

(** X2. [log_start] sends the banner '<b>Passivbot started!</b>' first,
    and when it returns the configuration display has followed it, also
    when the transport failed on the banner.  It calls nothing on the bot
    and leaves the timestamp, the bot and the pending tasks as they
    are. *)
Theorem log_start_announces (w : W) :
  let w' := snd (log_start rt lib w) in
  let banner :=
    SendMessage (_chat_id w) "<b>Passivbot started!</b>"
      :: failure_report (send_message rt (n_send w)) in
  (exists rest, since w w' = (banner ++ rest)%list) /\
  (fst (log_start rt lib w) = Ret tt ->
   since w w' =
     (banner
      ++ SendMessage (_chat_id w)
           (config_display lib (git_rev_parse rt (n_git w)) (config (_bot w)))
         :: failure_report (send_message rt (S (n_send w))))%list /\
   sent_texts (since w w') =
     ["<b>Passivbot started!</b>";
      config_display lib (git_rev_parse rt (n_git w)) (config (_bot w))]) /\
  bot_calls (since w w') = [] /\
  config_reload_ts w' = config_reload_ts w /\
  _bot w' = _bot w /\
  tasks w' = tasks w.
Proof.
  intros w' banner. subst w' banner. rewrite log_start_run. fields.
  erewrite since_app by (fields; reflexivity).
  split; [eexists; reflexivity|].
  split; [intros _; split; [reflexivity|]|]; read_log; repeat split.
Qed.

(** X3. [exit] raises [KeyboardInterrupt] whatever [self._updater.stop()]
    does.  It prints one line, the success line when [stop] returns and the
    failure line when it raises, sends nothing and changes nothing else. *)
Theorem exit_always_interrupts (updater_stop : option exn) (w : W) :
  exit updater_stop w =
  (Raise KeyboardInterrupt,
   add_event
     (Print (match updater_stop with
             | None => "Succesfully shutdown telegram bot"
             | Some _ =>
                 "Failed to shutdown telegram bot. Please make sure it is correctly terminated"
             end)) w) /\
  sent_texts (since w (snd (exit updater_stop w))) = [] /\
  bot_calls (since w (snd (exit updater_stop w))) = [] /\
  config_reload_ts (snd (exit updater_stop w)) = config_reload_ts w /\
  _bot (snd (exit updater_stop w)) = _bot w /\
  tasks (snd (exit updater_stop w)) = tasks w.
Proof.
  assert (E : exit updater_stop w =
    (Raise KeyboardInterrupt,
     add_event
       (Print (match updater_stop with
               | None => "Succesfully shutdown telegram bot"
               | Some _ =>
                   "Failed to shutdown telegram bot. Please make sure it is correctly terminated"
               end)) w)).
  { unfold exit, bind, try_except, lift, print, raise.
    destruct updater_stop as [e|]; reflexivity. }
  rewrite E. split; [reflexivity|].
  erewrite since_app by (fields; reflexivity).
  destruct updater_stop; repeat split.
Qed.

(** ** The commands that only read *)

Lemma graceful_stop_run (w : W) :
  _graceful_stop rt w =
  (Ret tt,
   mkWorld (_chat_id w) (config_reload_ts w)
           (set_config_value "do_shrt" false (set_config_value "do_long" false (_bot w)))
           (tasks w)
           (log w ++ [Bot (CallSetConfigValue "do_long" false);
                      Bot (CallSetConfigValue "do_shrt" false)]
                  ++ SendMessage (_chat_id w)
                       "No longer opening new long or short positions, existing positions will be closed gracefully"
                       :: failure_report (send_message rt (n_send w)))%list
           (n_clock w) (S (n_send w)) (n_load w) (n_git w)).
Proof.
  unfold _graceful_stop, bind. prims. rewrite send_msg_run. fields.
  rewrite <- !app_assoc. reflexivity.
Qed.

(** A command that only reads either raises and leaves the world as it
    found it, or returns after one call of [send_msg]. *)
Lemma readonly_run (c : Command) (w : W) :
  c <> graceful_stop -> c <> reload_config ->
  (exists e, handler rt lib c w = (Raise e, w)) \/
  (exists msg g,
      handler rt lib c w =
      (Ret tt,
       mkWorld (_chat_id w) (config_reload_ts w) (_bot w) (tasks w)
               (log w ++ SendMessage (_chat_id w) msg
                      :: failure_report (send_message rt (n_send w)))%list
               (n_clock w) (S (n_send w)) (n_load w) g)).
Proof.
  intros Hg Hr. destruct c; try congruence; clear Hg Hr; cbn [handler].
  - unfold _balance, bind, bot_get, lift, ret. fields.
    destruct (truthy (position (_bot w))).
    + destruct (getitem _ "equity") as [e1|e1]; fields; [|left; eexists; reflexivity].
      destruct (getitem _ "used_margin") as [e2|e2]; fields; [|left; eexists; reflexivity].
      destruct (getitem _ "available_margin") as [e3|e3]; fields;
        [|left; eexists; reflexivity].
      rewrite send_msg_run. right. do 2 eexists. reflexivity.
    + rewrite send_msg_run. right. do 2 eexists. reflexivity.
  - destruct (orders_run w) as (sorted & _ & _ & _ & Er).
    rewrite Er, send_msg_run. right. do 2 eexists. reflexivity.
  - unfold _position, bind, bot_get, lift. fields.
    destruct (contains "long" (position (_bot w))).
    + destruct (getitem _ "long") as [lp|e1]; fields; [|left; eexists; reflexivity].
      destruct (getitem _ "shrt") as [sp|e2]; fields; [|left; eexists; reflexivity].
      destruct (add_position_rows _ _ _ _) as [t|e3]; fields;
        [|left; eexists; reflexivity].
      unfold get_string, get_rows. fields.
      rewrite send_msg_run. right. do 2 eexists. reflexivity.
    + rewrite send_msg_run. right. do 2 eexists. reflexivity.
  - rewrite show_config_run. right. do 2 eexists. reflexivity.
  - unfold _help. rewrite send_msg_run. right. do 2 eexists. reflexivity.
Qed.

(** X4. [/balance], [/orders], [/position], [/show_config] and [/help]
    only read: they call nothing on the bot and leave the bot, the
    timestamp and the pending tasks as they are.  Each either returns
    after handing exactly one message to the transport, or raises before
    it has sent, printed or changed anything. *)
Theorem readonly_commands (c : Command) (w : W) :
  c <> graceful_stop -> c <> reload_config ->
  let w' := snd (handler rt lib c w) in
  bot_calls (since w w') = [] /\
  config_reload_ts w' = config_reload_ts w /\
  _bot w' = _bot w /\
  tasks w' = tasks w /\
  ((fst (handler rt lib c w) = Ret tt /\
    exists msg,
      since w w' =
        SendMessage (_chat_id w) msg :: failure_report (send_message rt (n_send w))) \/
   (exists e, fst (handler rt lib c w) = Raise e /\ w' = w)).
Proof.
  intros Hg Hr w'. subst w'.
  destruct (readonly_run c w Hg Hr) as [[e E]|(msg & g & E)]; rewrite E; fields.
  - unfold since. rewrite skipn_all. repeat split. right. now exists e.
  - erewrite since_app by (fields; reflexivity). read_log.
    repeat split. left. split; [reflexivity|]. now exists msg.
Qed.

(** ** What a handler can raise *)




(** X11. [/position] subscripts the two sides as they come.  With both
    [long] and [shrt] there: when [long] is no mapping, or when [long] is a
    mapping with a [size] and [shrt] is no mapping, the handler raises
    [TypeError] and nothing is sent or changed. *)
Theorem position_side_not_mapping (w : W) :
  (forall long_position shrt_position : pyval,
      lookup "long" (position (_bot w)) = Some long_position ->
      lookup "shrt" (position (_bot w)) = Some shrt_position ->
      (forall d, long_position <> PDict d) ->
      _position rt lib w = (Raise TypeError, w)) /\
  (forall (l : dict) (size shrt_position : pyval),
      lookup "long" (position (_bot w)) = Some (PDict l) ->
      lookup "size" l = Some size ->
      lookup "shrt" (position (_bot w)) = Some shrt_position ->
      (forall d, shrt_position <> PDict d) ->
      _position rt lib w = (Raise TypeError, w)).
Proof.
  split.
  - intros lp sp Hl Hs Hn.
    assert (Hc : contains "long" (position (_bot w)) = true)
      by (apply contains_true; eauto).
    unfold _position, bind, bot_get, lift. fields. rewrite Hc.
    rewrite (getitem_some _ _ _ Hl), (getitem_some _ _ _ Hs). fields.
    cbn [position_rows add_position_rows]. unfold add_position_row.
    destruct lp as [q|s|d]; try reflexivity. now destruct (Hn d).
  - intros l size sp Hl Hz Hs Hn.
    assert (Hc : contains "long" (position (_bot w)) = true)
      by (apply contains_true; eauto).
    unfold _position, bind, bot_get, lift. fields. rewrite Hc.
    rewrite (getitem_some _ _ _ Hl), (getitem_some _ _ _ Hs). fields.
    cbn [position_rows add_position_rows]. unfold add_position_row.
    rewrite (getitem_some _ _ _ Hz). cbn [obind].
    destruct sp as [q|s|d]; try reflexivity. now destruct (Hn d).
Qed.

(** ** What every step of the loop keeps *)

Lemma to_chat_message (c t : string) (o : option exn) :
  Forall (to_chat c) (SendMessage c t :: failure_report (Config:=Config) o).
Proof.
  constructor; [reflexivity|]. destruct o; repeat constructor.
Qed.

Lemma guarded_clock (w : W) :
  n_clock (guarded rt w) = n_clock w \/ n_clock (guarded rt w) = S (n_clock w).
Proof. rewrite guarded_run. destruct (Qltb _ _); auto. Qed.

(** The effect of one step on the chat, the clock, the timestamp, the log
    and the pending tasks. *)
Lemma step_effect (w w' : W) :
  step rt lib w w' ->
  _chat_id w' = _chat_id w /\
  (n_clock w <= n_clock w')%nat /\
  (config_reload_ts w' = config_reload_ts w \/
   config_reload_ts w' = 0%Q \/
   exists k, (n_clock w <= k < n_clock w')%nat /\ config_reload_ts w' = clock rt k) /\
  exists evs,
    log w' = (log w ++ evs)%list /\
    Forall (to_chat (_chat_id w)) evs /\
    ((bot_calls evs = [] /\ tasks w' = tasks w) \/
     (bot_calls evs = [CallSetConfigValue "do_long" false;
                       CallSetConfigValue "do_shrt" false] /\ tasks w' = tasks w) \/
     (exists cfg, bot_calls evs = [CallPause; CallSetConfig cfg; CallInitIndicators] /\
                  tasks w' = S (tasks w)) \/
     (bot_calls evs = [CallResume] /\ S (tasks w') = tasks w)).
Proof.
  intros Hs. destruct Hs as [c w|w Ht|b w].
  - assert (Hro : c <> graceful_stop -> c <> reload_config ->
                  let w' := snd (handler rt lib c w) in
                  _chat_id w' = _chat_id w /\
                  (n_clock w <= n_clock w')%nat /\
                  (config_reload_ts w' = config_reload_ts w \/
                   config_reload_ts w' = 0%Q \/
                   exists k, (n_clock w <= k < n_clock w')%nat /\
                             config_reload_ts w' = clock rt k) /\
                  exists evs,
                    log w' = (log w ++ evs)%list /\
                    Forall (to_chat (_chat_id w)) evs /\
                    ((bot_calls evs = [] /\ tasks w' = tasks w) \/
                     (bot_calls evs = [CallSetConfigValue "do_long" false;
                                       CallSetConfigValue "do_shrt" false] /\
                      tasks w' = tasks w) \/
                     (exists cfg,
                         bot_calls evs = [CallPause; CallSetConfig cfg; CallInitIndicators] /\
                         tasks w' = S (tasks w)) \/
                     (bot_calls evs = [CallResume] /\ S (tasks w') = tasks w))).
    { intros Hg Hr w'. subst w'.
      destruct (readonly_run c w Hg Hr) as [[e E]|(msg & g & E)]; rewrite E; fields.
      - repeat split; auto. exists []. rewrite app_nil_r.
        repeat split; auto.
      - repeat split; auto. eexists. split; [reflexivity|].
        split; [apply to_chat_message|]. left. read_log. auto. }
    destruct c; try (apply Hro; discriminate); clear Hro; cbn [handler].
    + rewrite graceful_stop_run. fields. repeat split; auto.
      eexists. split; [reflexivity|]. split.
      * apply Forall_app. split; [repeat constructor|apply to_chat_message].
      * right; left. read_log. auto.
    + destruct (accepted rt w) eqn:Ha.
      * destruct (json_load rt (n_load w)) as [cfg|e] eqn:Hl;
          [|destruct (is_Exception e) eqn:Hx].
        -- rewrite (reload_load_ok w cfg Ha Hl). fields. unfold acceptance_time.
           pose proof (guarded_clock w) as Hg.
           repeat split; [lia| |].
           ++ right; right. exists (n_clock (guarded rt w)). split; [lia|reflexivity].
           ++ eexists. split; [reflexivity|]. split.
              ** apply Forall_app. split; [apply to_chat_message|repeat constructor].
              ** right; right; left. exists cfg. read_log. auto.
        -- rewrite (reload_load_failed w e Ha Hl Hx). fields.
           pose proof (guarded_clock w) as Hg.
           repeat split; [lia|auto|].
           eexists. split; [reflexivity|]. split.
           ++ apply Forall_app. split; apply to_chat_message.
           ++ left. read_log. auto.
        -- rewrite (reload_load_escaped w e Ha Hl Hx). fields. unfold acceptance_time.
           pose proof (guarded_clock w) as Hg.
           repeat split; [lia| |].
           ++ right; right. exists (n_clock (guarded rt w)). split; [lia|reflexivity].
           ++ eexists. split; [reflexivity|]. split; [apply to_chat_message|].
              left. read_log. auto.
      * rewrite (reload_rejected w Ha). fields. repeat split; auto.
        eexists. split; [reflexivity|]. split; [apply to_chat_message|].
        left. read_log. auto.
  - unfold task_done. rewrite init_finished_run. fields. repeat split; auto.
    eexists. split; [reflexivity|]. split.
    + apply Forall_app. split; [repeat constructor|].
      apply Forall_app. split; apply to_chat_message.
    + right; right; right. read_log. split; [reflexivity|]. lia.
  - cbn [set_bot _chat_id n_clock config_reload_ts log tasks]. repeat split; auto.
    exists []. rewrite app_nil_r. repeat split; auto.
Qed.

(** X8. Every message of a reachable log went to the chat the relay was
    set up with: no step changes [_chat_id], and no handler sends to any
    other chat. *)
Theorem messages_go_to_chat (w : W) :
  reachable rt lib w ->
  (forall c t, In (SendMessage c t) (log w) -> c = _chat_id w) /\
  (forall w', step rt lib w w' -> _chat_id w' = _chat_id w).
Proof.
  intros Hr. split; [|intros w' Hs; now apply step_effect].
  intros c t Hin.
  assert (Hall : Forall (to_chat (_chat_id w)) (log w)).
  { clear c t Hin. induction Hr as [c b|w w' _ IH Hs].
    - constructor.
    - destruct (step_effect w w' Hs) as (Ec & _ & _ & evs & El & Hev & _).
      rewrite Ec, El. apply Forall_app. split; assumption. }
  rewrite Forall_forall in Hall. exact (Hall _ Hin).
Qed.

Lemma calls_step (p : BotCall Config -> bool) (w w' : W) (evs : list (Event Config)) :
  log w' = (log w ++ evs)%list ->
  calls p w' = (calls p w + length (filter p (bot_calls evs)))%nat.
Proof.
  intros E. unfold calls. now rewrite E, bot_calls_app, filter_app, length_app.
Qed.

(** X9. In every reachable state the log holds as many [pause] calls as
    [set_config] calls and as [init_indicators] calls, and the [resume]
    calls together with the pending tasks make up the same number: the bot
    is resumed once for each reload that has completed, never more often
    than it was paused. *)
Theorem pause_resume_balance (w : W) :
  reachable rt lib w ->
  calls is_pause w = calls is_init_indicators w /\
  calls is_set_config w = calls is_init_indicators w /\
  (calls is_resume w + tasks w)%nat = calls is_init_indicators w.
Proof.
  induction 1 as [c b|w w' _ IH Hs].
  - repeat split.
  - destruct IH as (I1 & I2 & I3).
    destruct (step_effect w w' Hs) as (_ & _ & _ & evs & El & _ & Hc).
    rewrite !(calls_step _ w w' evs El).
    destruct Hc as [[Hb Ht]|[[Hb Ht]|[(cfg & Hb & Ht)|[Hb Ht]]]];
      rewrite Hb; cbn [filter is_pause is_set_config is_init_indicators is_resume length];
      lia.
Qed.

(** X10. In every reachable state the timestamp is zero or a value the
    clock has returned before: nothing else is ever stored in it. *)
Theorem timestamp_is_clock_reading (w : W) :
  reachable rt lib w ->
  config_reload_ts w = 0%Q \/
  exists k, (k < n_clock w)%nat /\ config_reload_ts w = clock rt k.
Proof.
  induction 1 as [c b|w w' _ IH Hs].
  - now left.
  - destruct (step_effect w w' Hs) as (_ & Hn & Hts & _).
    destruct Hts as [E|[E|(k & Hk & E)]].
    + rewrite E. destruct IH as [IH|(k & Hk & IH)]; [now left|].
      right. exists k. split; [lia|exact IH].
    + now left.
    + right. exists k. split; [lia|exact E].
Qed.

(** ** A whole reload, and a reload cut short *)

(** X6. A reload that is accepted and loads its file, followed by the
    completion of its task, calls [pause], [set_config] with the loaded
    configuration, [init_indicators] and [resume] on the bot, in this
    order, and sends the announcement, the banner and the display of the
    configuration the bot then has.  Afterwards no task of it is pending
    and the timestamp is zero, so the next reload is accepted. *)
Theorem reload_then_completion (w : W) (cfg : Config) :
  accepted rt w = true ->
  json_load rt (n_load w) = Ret cfg ->
  let w1 := snd (_reload_config rt w) in
  let w2 := task_done rt lib w1 in
  let b := resume (init_indicators (set_config cfg (pause (_bot w)))) in
  bot_calls (since w w2) = [CallPause; CallSetConfig cfg; CallInitIndicators; CallResume] /\
  sent_texts (since w w2) =
    ["Reloading config..."; "<b>Passivbot started!</b>";
     config_display lib (git_rev_parse rt (n_git w)) (config b)] /\
  _bot w2 = b /\
  tasks w2 = tasks w /\
  config_reload_ts w2 = 0%Q /\
  accepted rt w2 = true.
Proof.
  intros Ha Hl w1 w2 b.
  assert (E2 : w2 =
    mkWorld (_chat_id w) 0%Q b (tasks w)
      (log w ++ ((SendMessage (_chat_id w) "Reloading config..."
                    :: failure_report (send_message rt (n_send w)))
                 ++ [Bot CallPause; Bot (CallSetConfig cfg); Bot CallInitIndicators])
             ++ [Bot CallResume]
             ++ (SendMessage (_chat_id w) "<b>Passivbot started!</b>"
                   :: failure_report (send_message rt (S (n_send w))))
             ++ SendMessage (_chat_id w)
                  (config_display lib (git_rev_parse rt (n_git w)) (config b))
                  :: failure_report (send_message rt (S (S (n_send w)))))%list
      (S (n_clock (guarded rt w))) (S (S (S (n_send w)))) (S (n_load w)) (S (n_git w))).
  { subst w2 w1 b. rewrite (reload_load_ok w cfg Ha Hl). fields.
    unfold task_done. rewrite init_finished_run. fields.
    rewrite <- !app_assoc. reflexivity. }
  rewrite E2. fields.
  erewrite since_app by (fields; rewrite <- !app_assoc; reflexivity).
  read_log. repeat split.
Qed.

(** X7. When the read of the configuration file raises an error that is
    no [Exception], [/reload_config] lets it through: the announcement has
    been sent, the bot is not called and no task is created, but the
    timestamp stays at the time of acceptance, and an invocation less than
    five minutes later is rejected although no reload is under way. *)
Theorem reload_interrupted (w : W) (e : exn) :
  accepted rt w = true ->
  json_load rt (n_load w) = Raise e ->
  is_Exception e = false ->
  let w' := snd (_reload_config rt w) in
  fst (_reload_config rt w) = Raise e /\
  sent_texts (since w w') = ["Reloading config..."] /\
  bot_calls (since w w') = [] /\
  config_reload_ts w' = acceptance_time rt w /\
  _bot w' = _bot w /\
  tasks w' = tasks w /\
  ((0 < acceptance_time rt w)%Q ->
   (clock rt (n_clock w') - acceptance_time rt w < 300)%Q ->
   accepted rt w' = false /\
   sent_texts (since w' (snd (_reload_config rt w'))) =
     ["Config reload in progress, please wait"]).
Proof.
  intros Ha Hl Hx w'. subst w'.
  rewrite (reload_load_escaped w e Ha Hl Hx). fields.
  erewrite since_app by (fields; reflexivity). read_log.
  repeat split.
  - apply accepted_false. fields. split; assumption.
  - match goal with |- context [_reload_config rt ?x] => set (w1 := x) end.
    assert (Hr : accepted rt w1 = false).
    { apply accepted_false. subst w1. fields. split; assumption. }
    rewrite (reload_rejected w1 Hr).
    erewrite since_app by (fields; reflexivity). now read_log.
Qed.

(** X12. The callback does not look at what else is pending: when one of
    several [init_indicators] tasks completes, the bot is resumed and the
    timestamp set to zero although a reload is still under way, and the
    next [/reload_config] is accepted at once. *)
Theorem completion_resets_while_pending (w : W) :
  (1 < tasks w)%nat ->
  let w' := task_done rt lib w in
  (0 < tasks w')%nat /\
  S (tasks w') = tasks w /\
  bot_calls (since w w') = [CallResume] /\
  config_reload_ts w' = 0%Q /\
  accepted rt w' = true.
Proof.
  intros Ht w'. subst w'. unfold task_done. rewrite init_finished_run. fields.
  erewrite since_app by (fields; reflexivity). read_log.
  repeat split; lia.
Qed.

(** ** Between the acceptance of a reload and the completion of a task *)

Lemma calls_unchanged (p : BotCall Config -> bool) (w w' : W) (evs : list (Event Config)) :
  log w' = (log w ++ evs)%list ->
  filter p (bot_calls evs) = [] ->
  calls p w' = calls p w.
Proof.
  intros El Hf. rewrite (calls_step p w w' evs El), Hf. cbn [length]. lia.
Qed.

(** While a positive timestamp stands, a step that completes no task, any
    reload in it being invoked inside the window, changes neither the
    timestamp nor the pending tasks, and calls none of [pause],
    [set_config], [init_indicators] and [resume]. *)
Lemma window_step_quiet (t0 : Q) (w w' : W) :
  (0 < t0)%Q ->
  config_reload_ts w = t0 ->
  window_step rt lib t0 w w' ->
  config_reload_ts w' = t0 /\
  tasks w' = tasks w /\
  calls is_pause w' = calls is_pause w /\
  calls is_set_config w' = calls is_set_config w /\
  calls is_init_indicators w' = calls is_init_indicators w /\
  calls is_resume w' = calls is_resume w.
Proof.
  intros Hpos Hts Hs. destruct Hs as [c w Hc|b w].
  - assert (Hro : c <> graceful_stop -> c <> reload_config ->
                  let w' := snd (handler rt lib c w) in
                  config_reload_ts w' = t0 /\
                  tasks w' = tasks w /\
                  calls is_pause w' = calls is_pause w /\
                  calls is_set_config w' = calls is_set_config w /\
                  calls is_init_indicators w' = calls is_init_indicators w /\
                  calls is_resume w' = calls is_resume w).
    { intros Hg Hr w'. subst w'.
      destruct (readonly_run c w Hg Hr) as [[e E]|(msg & g & E)]; rewrite E; fields.
      - repeat split; auto.
      - repeat split; auto;
          (eapply calls_unchanged; [fields; reflexivity|now read_log]). }
    destruct c; try (apply Hro; discriminate); clear Hro; cbn [handler].
    + rewrite graceful_stop_run. fields.
      repeat split; auto;
        (eapply calls_unchanged; [fields; reflexivity|now read_log]).
    + assert (Ha : accepted rt w = false).
      { apply accepted_false. rewrite Hts. split; [exact Hpos|exact (Hc eq_refl)]. }
      rewrite (reload_rejected w Ha). fields.
      repeat split; auto;
        (eapply calls_unchanged; [fields; reflexivity|now read_log]).
  - cbn [set_bot config_reload_ts tasks]. repeat split; auto.
Qed.

Lemma window_run_quiet (t0 : Q) (w u : W) :
  (0 < t0)%Q ->
  config_reload_ts w = t0 ->
  window_run rt lib t0 w u ->
  config_reload_ts u = t0 /\
  tasks u = tasks w /\
  calls is_pause u = calls is_pause w /\
  calls is_set_config u = calls is_set_config w /\
  calls is_init_indicators u = calls is_init_indicators w /\
  calls is_resume u = calls is_resume w.
Proof.
  intros Hpos Hts Hrun. induction Hrun as [w|w w' w'' _ IH Hs].
  - repeat split; auto.
  - destruct (IH Hts) as (E0 & E1 & E2 & E3 & E4 & E5).
    destruct (window_step_quiet t0 w' w'' Hpos E0 Hs) as (F0 & F1 & F2 & F3 & F4 & F5).
    repeat split; congruence.
Qed.

(** The calls logged by an accepted reload that loads its file. *)
Lemma reload_load_ok_calls (w : W) (cfg : Config) :
  accepted rt w = true ->
  json_load rt (n_load w) = Ret cfg ->
  let w1 := snd (_reload_config rt w) in
  config_reload_ts w1 = acceptance_time rt w /\
  tasks w1 = S (tasks w) /\
  calls is_pause w1 = S (calls is_pause w) /\
  calls is_set_config w1 = S (calls is_set_config w) /\
  calls is_init_indicators w1 = S (calls is_init_indicators w) /\
  calls is_resume w1 = calls is_resume w.
Proof.
  intros Ha Hl w1. subst w1. rewrite (reload_load_ok w cfg Ha Hl). fields.
  repeat split;
    (erewrite calls_step by (fields; reflexivity); read_log;
     cbn [filter is_pause is_set_config is_init_indicators is_resume length]; lia).
Qed.

(** C1, as the code has it.  In a state whose timestamp is not zero and
    less than five minutes old, [/reload_config] answers 'Config reload in
    progress, please wait', calls nothing on the bot and leaves the
    timestamp as it is.  Hence, when an invocation is accepted and loads
    its file, the invocations that follow it within five minutes of the
    time it recorded are all rejected, as long as no [init_indicators]
    task completes: back to back, or with other commands and bot activity
    in between, the only [pause], [set_config] and [init_indicators] are
    those of the first, and there is no [resume]. *)
Theorem reload_in_progress_rejected :
  (forall k, (0 < clock rt k)%Q) ->
  (forall w : W,
      reachable rt lib w ->
      ~ (config_reload_ts w == 0)%Q ->
      (clock rt (n_clock w) - config_reload_ts w < 300)%Q ->
      let w' := snd (_reload_config rt w) in
      fst (_reload_config rt w) = Ret tt /\
      sent_texts (since w w') = ["Config reload in progress, please wait"] /\
      bot_calls (since w w') = [] /\
      config_reload_ts w' = config_reload_ts w /\
      _bot w' = _bot w /\
      tasks w' = tasks w) /\
  (forall (w : W) (cfg : Config) (n : nat),
      accepted rt w = true ->
      json_load rt (n_load w) = Ret cfg ->
      let w1 := snd (_reload_config rt w) in
      (forall j, (j < n)%nat ->
                 (clock rt (n_clock w1 + j) - acceptance_time rt w < 300)%Q) ->
      bot_calls (since w (reloads rt n w1)) =
        [CallPause; CallSetConfig cfg; CallInitIndicators] /\
      sent_texts (since w1 (reloads rt n w1)) =
        repeat "Config reload in progress, please wait" n /\
      bot_calls (since w1 (reloads rt n w1)) = [] /\
      config_reload_ts (reloads rt n w1) = acceptance_time rt w /\
      tasks (reloads rt n w1) = S (tasks w)) /\
  (forall (w : W) (cfg : Config) (u : W),
      accepted rt w = true ->
      json_load rt (n_load w) = Ret cfg ->
      let w1 := snd (_reload_config rt w) in
      window_run rt lib (acceptance_time rt w) w1 u ->
      config_reload_ts u = acceptance_time rt w /\
      tasks u = S (tasks w) /\
      calls is_pause u = S (calls is_pause w) /\
      calls is_set_config u = S (calls is_set_config w) /\
      calls is_init_indicators u = S (calls is_init_indicators w) /\
      calls is_resume u = calls is_resume w).
Proof.
  intros clock_positive. split; [|split].
  - intros w Hr Hn Hel w'.
    assert (Ha : accepted rt w = false).
    { apply accepted_false. split; [now apply reachable_ts_positive|exact Hel]. }
    subst w'. rewrite (reload_rejected w Ha). fields.
    erewrite since_app by (fields; reflexivity).
    read_log. repeat split.
  - intros w cfg n Ha Hl w1 Hwin. subst w1.
    rewrite (reload_load_ok w cfg Ha Hl) in *. fields.
    match goal with |- context [reloads rt n ?x] => set (w1 := x) in * end.
    destruct (reloads_rejected n w1) as (E1 & E2 & E3 & E4 & E5 & evs & E6 & E7 & E8).
    + subst w1. fields. apply clock_positive.
    + intros j Hj. subst w1. fields. exact (Hwin j Hj).
    + rewrite E1, E3. rewrite (since_app w1 _ evs E6).
      erewrite (since_trans w w1) by (try exact E6; subst w1; fields; reflexivity).
      read_log. rewrite E7, E8. subst w1. fields. repeat split.
  - intros w cfg u Ha Hl w1 Hrun.
    destruct (reload_load_ok_calls w cfg Ha Hl) as (E0 & E1 & E2 & E3 & E4 & E5).
    fold w1 in E0, E1, E2, E3, E4, E5.
    assert (Hpos : (0 < acceptance_time rt w)%Q) by apply clock_positive.
    destruct (window_run_quiet _ w1 u Hpos E0 Hrun) as (F0 & F1 & F2 & F3 & F4 & F5).
    repeat split; congruence.
Qed.

(** C4, as the code has it.  After a reload has been accepted and has
    loaded its file, as long as no [init_indicators] task completes and
    every [/reload_config] so far was invoked inside the five minutes, the
    timestamp stands, the task stays pending and there is no further
    [pause], [set_config], [init_indicators] or [resume].  An invocation
    made then, less than five minutes after the timestamp, is rejected and
    changes nothing.  One made five minutes after it or later is accepted
    although the first reload is still pending, and starts a reload
    sequence of its own when it can load the file. *)
Theorem pending_reload_window (w : W) (cfg : Config) (u : W) :
  accepted rt w = true ->
  json_load rt (n_load w) = Ret cfg ->
  (0 < acceptance_time rt w)%Q ->
  let w1 := snd (_reload_config rt w) in
  let t0 := acceptance_time rt w in
  window_run rt lib t0 w1 u ->
  (config_reload_ts u = t0 /\
   tasks u = S (tasks w) /\
   calls is_pause u = calls is_pause w1 /\
   calls is_set_config u = calls is_set_config w1 /\
   calls is_init_indicators u = calls is_init_indicators w1 /\
   calls is_resume u = calls is_resume w1) /\
  ((clock rt (n_clock u) - t0 < 300)%Q ->
   let u' := snd (_reload_config rt u) in
   fst (_reload_config rt u) = Ret tt /\
   sent_texts (since u u') = ["Config reload in progress, please wait"] /\
   bot_calls (since u u') = [] /\
   config_reload_ts u' = t0 /\
   _bot u' = _bot u /\
   tasks u' = S (tasks w)) /\
  ((300 <= clock rt (n_clock u) - t0)%Q ->
   accepted rt u = true /\
   (exists rest,
       sent_texts (since u (snd (_reload_config rt u))) = "Reloading config..." :: rest) /\
   (forall cfg' : Config,
       json_load rt (n_load u) = Ret cfg' ->
       bot_calls (since u (snd (_reload_config rt u))) =
         [CallPause; CallSetConfig cfg'; CallInitIndicators] /\
       tasks (snd (_reload_config rt u)) = S (S (tasks w)))).
Proof.
  intros Ha Hl Hpos w1 t0 Hrun.
  destruct (reload_load_ok_calls w cfg Ha Hl) as (E0 & E1 & _).
  fold w1 in E0, E1. fold t0 in E0.
  destruct (window_run_quiet t0 w1 u Hpos E0 Hrun) as (F0 & F1 & F2 & F3 & F4 & F5).
  split; [|split].
  - repeat split; congruence.
  - intros Hin u'.
    assert (Hr : accepted rt u = false).
    { apply accepted_false. rewrite F0. split; assumption. }
    subst u'. rewrite (reload_rejected u Hr). fields.
    erewrite since_app by (fields; reflexivity).
    read_log. repeat split; congruence.
  - intros Hout.
    assert (Hacc : accepted rt u = true).
    { apply accepted_true. rewrite F0. intros [_ Hlt].
      exact (Qlt_not_le _ _ Hlt Hout). }
    split; [exact Hacc|]. split; [now apply accepted_announces|].
    intros cfg' Hl'. rewrite (reload_load_ok u cfg' Hacc Hl'). fields.
    erewrite since_app by (fields; reflexivity).
    read_log. split; [reflexivity|congruence].
Qed.

End Properties.

(** * The properties at work on the demonstration bot *)

Import Demo.

Lemma every_100s_positive (k : nat) : (0 < every_100s k)%Q.
Proof. cbv [Qlt every_100s inject_Z Qnum Qden]. lia. Qed.

Lemma reloading_reachable : reachable rt_ok lib reloading.
Proof.
  apply (reachable_step rt_ok lib (start running_bot)).
  - apply reachable_init.
  - exact (step_command rt_ok lib reload_config (start running_bot)).
Qed.

Lemma waiting_run :
  window_run rt_ok lib (acceptance_time rt_ok (start running_bot)) reloading waiting.
Proof.
  apply (window_run_step rt_ok lib _ reloading (reloads rt_ok 1 reloading)).
  - apply (window_run_step rt_ok lib _ reloading reloading).
    + apply window_run_refl.
    + apply (window_command rt_ok lib _ reload_config reloading). intros _. reflexivity.
  - apply (window_command rt_ok lib _ reload_config (reloads rt_ok 1 reloading)).
    intros _. reflexivity.
Qed.

Lemma busy_run :
  window_run rt_ok lib (acceptance_time rt_ok (start running_bot)) reloading busy.
Proof.
  apply (window_run_step rt_ok lib _ reloading (snd (handler rt_ok lib balance reloading))).
  - apply (window_run_step rt_ok lib _ reloading reloading).
    + apply window_run_refl.
    + apply (window_command rt_ok lib _ balance reloading). discriminate.
  - apply (window_command rt_ok lib _ reload_config
                          (snd (handler rt_ok lib balance reloading))).
    intros _. reflexivity.
Qed.

(** The claim C1 fails on the demonstration bot: the reload accepted at
    1000 s loads its file and its task completes; the invocation at
    1100 s, inside the five minutes, is accepted and pauses the bot
    again. *)
Lemma reload_after_completion_accepted :
  accepted rt_ok (start running_bot) = true /\
  json_load rt_ok (n_load (start running_bot)) = Ret "{new}" /\
  (acceptance_time rt_ok completed - acceptance_time rt_ok (start running_bot) < 300)%Q /\
  sent_texts (since completed (snd (_reload_config rt_ok completed))) = ["Reloading config..."] /\
  bot_calls (since completed (snd (_reload_config rt_ok completed))) =
    [CallPause; CallSetConfig "{new}"; CallInitIndicators] /\
  bot_calls (since (start running_bot) (snd (_reload_config rt_ok completed))) =
    [CallPause; CallSetConfig "{new}"; CallInitIndicators; CallResume;
     CallPause; CallSetConfig "{new}"; CallInitIndicators].
Proof. repeat split. Qed.

(** C1, as amended, on the demonstration bot: after a reload accepted at
    1000 s, the invocations at 1100 s and 1200 s are rejected, back to
    back or after a [/balance]. *)
Lemma reload_in_progress_rejected_witness :
  (sent_texts (since reloading (snd (_reload_config rt_ok reloading))) =
     ["Config reload in progress, please wait"] /\
   config_reload_ts (snd (_reload_config rt_ok reloading)) = config_reload_ts reloading) /\
  bot_calls (since (start running_bot) waiting) =
    [CallPause; CallSetConfig "{new}"; CallInitIndicators] /\
  (tasks busy = 1%nat /\ calls is_pause busy = 1%nat /\ calls is_resume busy = 0%nat).
Proof.
  destruct (reload_in_progress_rejected rt_ok lib every_100s_positive) as (H1 & H2 & H3).
  split; [|split].
  - destruct (H1 reloading reloading_reachable) as (_ & Hs & _ & Ht & _).
    + vm_compute. discriminate.
    + reflexivity.
    + split; [exact Hs|exact Ht].
  - refine (proj1 (H2 (start running_bot) "{new}" 2%nat eq_refl eq_refl _)).
    intros [|[|j]] Hj; [reflexivity|reflexivity|lia].
  - destruct (H3 (start running_bot) "{new}" busy eq_refl eq_refl busy_run)
      as (_ & Ht & Hp & _ & _ & Hr).
    split; [exact Ht|]. split; [exact Hp|exact Hr].
Defined.

(** C2 on the demonstration bot: the first reload finds an unreadable
    file. *)
Lemma reload_failed_load_witness :
  sent_texts (since (start running_bot) failed) =
    ["Reloading config..."; "Failed to load config file"] /\
  bot_calls (since (start running_bot) failed) = [] /\
  config_reload_ts failed = 0%Q /\
  accepted rt_bad_file failed = true.
Proof.
  destruct (reload_failed_load rt_bad_file (start running_bot) JSONDecodeError)
    as (_ & Hs & Hc & Hz & _ & _ & Ha & _).
  - intros [H _]. vm_compute in H. discriminate.
  - reflexivity.
  - reflexivity.
  - repeat split; assumption.
Defined.

(** The claim C4 fails on the demonstration bot: with the first reload
    still pending and its timestamp standing, the invocation made 300 s
    after it is accepted and starts a second reload sequence. *)
Lemma pending_reload_accepted_again :
  tasks waiting = 1%nat /\
  ~ (config_reload_ts waiting == 0)%Q /\
  sent_texts (since waiting (snd (_reload_config rt_ok waiting))) = ["Reloading config..."] /\
  sent_texts (since waiting (snd (_reload_config rt_ok waiting))) <>
    ["Config reload in progress, please wait"] /\
  bot_calls (since waiting (snd (_reload_config rt_ok waiting))) =
    [CallPause; CallSetConfig "{new}"; CallInitIndicators] /\
  tasks (snd (_reload_config rt_ok waiting)) = 2%nat.
Proof.
  repeat split; try reflexivity.
  - vm_compute. discriminate.
  - vm_compute. discriminate.
Qed.

(** C4, as amended, on the demonstration bot: with the reload of 1000 s
    pending, an invocation at 1100 s is rejected, and after the
    invocations at 1100 s and 1200 s the one at 1300 s is accepted. *)
Lemma pending_reload_window_witness :
  sent_texts (since reloading (snd (_reload_config rt_ok reloading))) =
    ["Config reload in progress, please wait"] /\
  (config_reload_ts waiting = config_reload_ts reloading /\
   tasks waiting = tasks reloading) /\
  accepted rt_ok waiting = true.
Proof.
  split; [|split].
  - destruct (pending_reload_window rt_ok lib (start running_bot) "{new}" reloading)
      as (_ & H & _);
      [reflexivity|reflexivity|reflexivity|apply window_run_refl|].
    refine (proj1 (proj2 (H _))). reflexivity.
  - destruct (pending_reload_window rt_ok lib (start running_bot) "{new}" waiting)
      as ((Ht & Hk & _) & _ & _);
      [reflexivity|reflexivity|reflexivity|exact waiting_run|].
    split; [exact Ht|exact Hk].
  - destruct (pending_reload_window rt_ok lib (start running_bot) "{new}" waiting)
      as (_ & _ & H);
      [reflexivity|reflexivity|reflexivity|exact waiting_run|].
    refine (proj1 (H _)). vm_compute. discriminate.
Defined.

(** The claim C5 fails on the demonstration bot: a reload accepted at
    1000 s whose file cannot be parsed is followed by one accepted at
    1100 s, and so is a reload whose task has completed. *)
Lemma immediate_retry_accepted :
  (accepted rt_bad_file (start running_bot) = true /\
   accepted rt_bad_file failed = true /\
   (acceptance_time rt_bad_file failed - acceptance_time rt_bad_file (start running_bot)
    < 300)%Q) /\
  (accepted rt_ok (start running_bot) = true /\
   accepted rt_ok completed = true /\
   (acceptance_time rt_ok completed - acceptance_time rt_ok (start running_bot)
    < 300)%Q).
Proof. repeat split. Qed.

(** C5, as amended, on the demonstration bot: with the reload of 1000 s
    pending, the invocations at 1100 s and 1200 s are rejected and the one
    at 1300 s is accepted. *)
Lemma reload_cooldown_witness :
  (300 <= clock rt_ok (n_clock waiting) - acceptance_time rt_ok (start running_bot))%Q.
Proof.
  destruct (reload_cooldown (B:=SimpleBot) rt_ok every_100s_positive) as [H1 _].
  apply (H1 (start running_bot) "{new}" 2%nat).
  - reflexivity.
  - reflexivity.
  - intros [|[|j]] Hj; [reflexivity|reflexivity|lia].
  - reflexivity.
Defined.

(** C9 on the demonstration bot: with the transport down, [/balance]
    returns as it does with the transport up. *)
Lemma send_msg_never_raises_witness :
  fst (handler rt_ok lib balance (start running_bot)) =
  fst (handler rt_mute lib balance (start running_bot)).
Proof.
  destruct (send_msg_never_raises rt_ok lib "" (start running_bot))
    as (_ & _ & _ & _ & _ & H).
  refine (proj1 (H rt_mute balance _ _ _)); intros k; reflexivity.
Defined.

(** C7 on the demonstration bot. *)
Lemma orders_sorted_by_price_witness :
  sent_texts (since (start fresh_bot) (snd (_orders rt_ok lib (start fresh_bot)))) =
    ["<pre>" ++ draw_table lib ["l/s"; "b/s"; "price"; "qty"]
                           [[PStr "shrt"; PStr "sell"; PNum 90; PNum 2];
                            [PStr "long"; PStr "buy"; PNum 100; PNum 1]] ++ "</pre>"].
Proof.
  exact (proj2 (orders_sorted_by_price rt_ok lib (start fresh_bot)) eq_refl).
Defined.

(** The claim C8 fails on a position that holds the two sides and no
    balance figure: it is not empty, and [/balance] raises before it sends
    anything. *)
Lemma balance_without_equity :
  position (_bot (start sides_only_bot)) <> [] /\
  _balance rt_ok lib (start sides_only_bot) =
    (Raise (KeyError "equity"), start sides_only_bot) /\
  sent_texts (log (snd (_balance rt_ok lib (start sides_only_bot)))) = [].
Proof. repeat split. discriminate. Qed.

(** C8, as amended, on the demonstration bots. *)
Lemma balance_reply_witness :
  sent_texts (since (start fresh_bot) (snd (_balance rt_ok lib (start fresh_bot)))) =
    ["Balance not retrieved yet, please try again later"] /\
  sent_texts (since (start running_bot) (snd (_balance rt_ok lib (start running_bot)))) =
    [balance_text lib (PNum 1000) (PNum 100) (PNum 900)] /\
  (exists k, _balance rt_ok lib (start sides_only_bot) =
             (Raise (KeyError k), start sides_only_bot)).
Proof.
  split; [|split].
  - destruct (balance_reply rt_ok lib (start fresh_bot)) as (H & _ & _).
    destruct (H eq_refl) as [_ Hs]. rewrite Hs. reflexivity.
  - destruct (balance_reply rt_ok lib (start running_bot)) as (_ & H & _).
    destruct (H (PNum 1000) (PNum 100) (PNum 900)) as [_ Hs];
      [discriminate|reflexivity|reflexivity|reflexivity|].
    rewrite Hs. reflexivity.
  - destruct (balance_reply rt_ok lib (start sides_only_bot)) as (_ & _ & H).
    destruct H as (k & _ & _ & Hk); [discriminate|left; reflexivity|].
    exists k. exact Hk.
Defined.

(** C10 on the demonstration bots. *)
Lemma position_reply_witness :
  sent_texts (since (start shrt_only_bot) (snd (_position rt_ok lib (start shrt_only_bot)))) =
    ["Position not initialized yet, please try again later"] /\
  _position rt_ok lib (start long_only_bot) = (Raise (KeyError "shrt"), start long_only_bot) /\
  (exists k, _position rt_ok lib (start thin_long_bot) =
             (Raise (KeyError k), start thin_long_bot)) /\
  fst (_position rt_ok lib (start running_bot)) = Ret tt.
Proof.
  split; [|split; [|split]].
  - destruct (position_reply rt_ok lib (start shrt_only_bot)) as (H & _).
    destruct (H eq_refl) as [_ Hs]. rewrite Hs. reflexivity.
  - destruct (position_reply rt_ok lib (start long_only_bot)) as (_ & H & _).
    exact (H (PDict side_fields) eq_refl eq_refl).
  - destruct (position_reply rt_ok lib (start thin_long_bot)) as (_ & _ & H & _).
    destruct (H [("size", PNum 1); ("price", PNum 100)] side_fields eq_refl eq_refl)
      as (k & _ & _ & Hk).
    + exists "upnl". split; [simpl; tauto|left; reflexivity].
    + exists k. exact Hk.
  - destruct (position_reply rt_ok lib (start running_bot)) as (_ & _ & _ & H).
    refine (proj1 (H side_fields side_fields eq_refl eq_refl _)).
    intros k Hk. simpl in Hk.
    repeat (destruct Hk as [Hk|Hk]; [subst k; split; discriminate|]).
    destruct Hk.
Defined.

(** ** More of the class on the demonstration bot *)

Lemma completed_reachable : reachable rt_ok lib completed.
Proof.
  apply (reachable_step rt_ok lib reloading).
  - exact reloading_reachable.
  - apply step_task_done. vm_compute. lia.
Qed.


(** X2 on the demonstration bot, with the transport down. *)
Lemma log_start_announces_witness :
  sent_texts (since (start running_bot) (snd (log_start rt_mute lib (start running_bot)))) =
    ["<b>Passivbot started!</b>";
     config_display lib (Ret "abc1234") "{old}"].
Proof.
  destruct (log_start_announces rt_mute lib (start running_bot)) as (_ & H & _).
  exact (proj2 (H eq_refl)).
Defined.

(** X4 on the demonstration bot: [/position] on a position without its
    short side raises and leaves the world as it was. *)
Lemma readonly_commands_witness :
  bot_calls (since (start long_only_bot)
                   (snd (handler rt_ok lib position_ (start long_only_bot)))) = [] /\
  _bot (snd (handler rt_ok lib position_ (start long_only_bot))) = _bot (start long_only_bot).
Proof.
  destruct (readonly_commands rt_ok lib position_ (start long_only_bot))
    as (Hc & _ & Hb & _); [discriminate|discriminate|].
  split; [exact Hc|exact Hb].
Defined.


(** X6 on the demonstration bot: the bot ends up resumed, with the new
    configuration. *)
Lemma reload_then_completion_witness :
  bot_calls (since (start running_bot) completed) =
    [CallPause; CallSetConfig "{new}"; CallInitIndicators; CallResume] /\
  sb_config (_bot completed) = "{new}" /\
  sb_paused (_bot completed) = false /\
  tasks completed = 0%nat.
Proof.
  destruct (reload_then_completion rt_ok lib (start running_bot) "{new}" eq_refl eq_refl)
    as (Hc & _ & Hb & Ht & _).
  split; [exact Hc|].
  split; [exact (f_equal sb_config Hb)|].
  split; [exact (f_equal sb_paused Hb)|exact Ht].
Defined.

(** X7 on the demonstration bot: the read is interrupted at 1000 s, and the
    invocation at 1100 s is rejected. *)
Lemma reload_interrupted_witness :
  fst (_reload_config rt_interrupted (start running_bot)) = Raise KeyboardInterrupt /\
  tasks (snd (_reload_config rt_interrupted (start running_bot))) = 0%nat /\
  accepted rt_interrupted (snd (_reload_config rt_interrupted (start running_bot))) = false.
Proof.
  destruct (reload_interrupted rt_interrupted (start running_bot) KeyboardInterrupt
                               eq_refl eq_refl eq_refl)
    as (Hf & _ & _ & _ & _ & Ht & Hn).
  split; [exact Hf|]. split; [exact Ht|].
  refine (proj1 (Hn _ _)); reflexivity.
Defined.

(** X8 on the demonstration bot. *)
Lemma messages_go_to_chat_witness :
  "chat" = _chat_id completed /\
  _chat_id (snd (handler rt_ok lib balance completed)) = _chat_id completed.
Proof.
  destruct (messages_go_to_chat rt_ok lib completed completed_reachable) as [H1 H2].
  split.
  - apply (H1 "chat" "<b>Passivbot started!</b>"). vm_compute. tauto.
  - apply H2. exact (step_command rt_ok lib balance completed).
Defined.

(** X9 on the demonstration bot, once with the reload pending and once
    with the reload completed. *)
Lemma pause_resume_balance_witness :
  (calls is_resume reloading + tasks reloading)%nat = calls is_pause reloading /\
  (calls is_resume completed + tasks completed)%nat = calls is_pause completed.
Proof.
  destruct (pause_resume_balance rt_ok lib reloading reloading_reachable) as (H1 & _ & H3).
  destruct (pause_resume_balance rt_ok lib completed completed_reachable) as (H1' & _ & H3').
  split.
  - exact (eq_trans H3 (eq_sym H1)).
  - exact (eq_trans H3' (eq_sym H1')).
Defined.

(** X10 on the demonstration bot. *)
Lemma timestamp_is_clock_reading_witness :
  config_reload_ts reloading = 0%Q \/
  exists k, (k < n_clock reloading)%nat /\ config_reload_ts reloading = clock rt_ok k.
Proof.
  exact (timestamp_is_clock_reading rt_ok lib reloading reloading_reachable).
Defined.

(** X11 on the demonstration bot: the long side is the number 0. *)
Lemma position_side_not_mapping_witness :
  _position rt_ok lib (start flat_long_bot) = (Raise TypeError, start flat_long_bot).
Proof.
  refine (proj1 (position_side_not_mapping rt_ok lib (start flat_long_bot))
                (PNum 0) (PDict side_fields) eq_refl eq_refl _).
  intros d. discriminate.
Defined.

Lemma overlapping_reachable : reachable rt_ok lib overlapping.
Proof.
  apply (reachable_step rt_ok lib waiting);
    [|exact (step_command rt_ok lib reload_config waiting)].
  apply (reachable_step rt_ok lib (reloads rt_ok 1 reloading));
    [|exact (step_command rt_ok lib reload_config (reloads rt_ok 1 reloading))].
  apply (reachable_step rt_ok lib reloading);
    [|exact (step_command rt_ok lib reload_config reloading)].
  exact reloading_reachable.
Qed.

(** X12 on the demonstration bot: two reloads are pending, one completes. *)
Lemma completion_resets_while_pending_witness :
  reachable rt_ok lib overlapping /\
  tasks overlapping = 2%nat /\
  tasks (task_done rt_ok lib overlapping) = 1%nat /\
  config_reload_ts (task_done rt_ok lib overlapping) = 0%Q /\
  accepted rt_ok (task_done rt_ok lib overlapping) = true.
Proof.
  destruct (completion_resets_while_pending rt_ok lib overlapping)
    as (_ & Ht & _ & Hz & Ha).
  - vm_compute. lia.
  - split; [exact overlapping_reachable|].
    split; [reflexivity|].
    split; [exact (eq_add_S _ _ Ht)|].
    split; [exact Hz|exact Ha].
Defined.
